(** * mcp-server-demo: the notes tool host (main.py) and the tool-call
      orchestration client (client-stdio.py), embedded and verified.

    Conventions of the embedding.

    - A Python [str] is a [string] whose characters are read as the code
      points U+0000..U+00FF; the library functions on [str] that the code
      calls ([strip], [lower], truthiness) are defined on that range with
      Python's tables.
    - Python exceptions are values of [PyExc]; a call that may raise returns
      an [Outcome].
    - The notes file is the only durable state of main.py: it is an
      [option string] ([None] when the file does not exist).  Text-mode I/O
      is the POSIX one: writing leaves a line feed as it is, reading applies
      Python's universal-newline translation. *)

From Stdlib Require Import Ascii ZArith Lia.
From stdpp Require Import base option list strings pretty gmap.

#[local] Set Warnings "-register-all".

Local Open Scope Z_scope.
Local Open Scope nat_scope.
Local Open Scope stdpp_scope.

(* ===================================================================== *)
(** ** Python [str] operations used by both programs                      *)
(* ===================================================================== *)

Module PyStr.

Definition LF : ascii := "010"%char.
Definition CR : ascii := "013"%char.

(** [str.isspace] on one character, for code points below 256:
    U+0009..U+000D, U+001C..U+001F, U+0020, U+0085 and U+00A0. *)
Definition is_space (c : ascii) : bool :=
  let n := nat_of_ascii c in
  ((9 <=? n) && (n <=? 13)) || ((28 <=? n) && (n <=? 32))
  || (n =? 133) || (n =? 160).

Fixpoint lstrip (s : string) : string :=
  match s with
  | EmptyString => EmptyString
  | String c s' => if is_space c then lstrip s' else s
  end.

Fixpoint rstrip (s : string) : string :=
  match s with
  | EmptyString => EmptyString
  | String c s' =>
      match rstrip s' with
      | EmptyString => if is_space c then EmptyString else String c EmptyString
      | r => String c r
      end
  end.

(** [s.strip()]: whitespace removed at both ends. *)
Definition strip (s : string) : string := lstrip (rstrip s).

(** [str.lower] on one character: A..Z, and the Latin-1 capitals
    U+00C0..U+00DE except the multiplication sign U+00D7. *)
Definition lower_char (c : ascii) : ascii :=
  let n := nat_of_ascii c in
  if ((65 <=? n) && (n <=? 90))
     || ((192 <=? n) && (n <=? 222) && negb (n =? 215))
  then ascii_of_nat (n + 32) else c.

Fixpoint lower (s : string) : string :=
  match s with
  | EmptyString => EmptyString
  | String c s' => String (lower_char c) (lower s')
  end.

(** Truthiness of a [str]: the empty string is false. *)
Definition truthy (s : string) : bool :=
  match s with EmptyString => false | _ => true end.

(** Every character is whitespace (true of the empty string). *)
Fixpoint blank (s : string) : bool :=
  match s with
  | EmptyString => true
  | String c s' => is_space c && blank s'
  end.

(** [c in s] for a one-character [c]. *)
Fixpoint contains (c : ascii) (s : string) : bool :=
  match s with
  | EmptyString => false
  | String d s' => Ascii.eqb c d || contains c s'
  end.

(** [s.endswith(c)] for a one-character [c]. *)
Fixpoint ends_with (c : ascii) (s : string) : bool :=
  match s with
  | EmptyString => false
  | String d EmptyString => Ascii.eqb c d
  | String _ s' => ends_with c s'
  end.

End PyStr.

(* ===================================================================== *)
(** ** main.py: the sticky-note tools                                     *)
(* ===================================================================== *)

Module Notes.
Import PyStr.

(** The state of [NOTES_FILE]: [None] when [os.path.exists] is false,
    otherwise the stored text. *)
Definition FileState : Type := option string.

Definition no_notes_yet : string := "No notes yet.".
Definition note_saved : string := "Note saved!".

(** [ensure_file]: create the file empty when it does not exist. *)
Definition ensure_file (fs : FileState) : FileState :=
  match fs with
  | None => Some EmptyString
  | Some _ => fs
  end.

(** [open(NOTES_FILE, "a")] followed by [f.write(data)]. *)
Definition append_text (data : string) (fs : FileState) : FileState :=
  match fs with
  | None => Some data
  | Some old => Some (old +:+ data)
  end.

(** What a text-mode read delivers: "\r\n" and a lone "\r" both become
    "\n" ([open(..., "r")] leaves [newline=None]). *)
Fixpoint universal_newlines (s : string) : string :=
  match s with
  | EmptyString => EmptyString
  | String c s' =>
      if Ascii.eqb c CR then
        match s' with
        | String d s'' =>
            if Ascii.eqb d LF then String LF (universal_newlines s'')
            else String LF (universal_newlines s')
        | EmptyString => String LF EmptyString
        end
      else String c (universal_newlines s')
  end.

(** [f.read()] on a file opened with mode "r". *)
Definition read_text (fs : FileState) : string :=
  match fs with
  | None => EmptyString
  | Some raw => universal_newlines raw
  end.

(** The lines of a translated text, each keeping its final "\n". *)
Fixpoint split_lines (s : string) : list string :=
  match s with
  | EmptyString => []
  | String c s' =>
      if Ascii.eqb c LF then String c EmptyString :: split_lines s'
      else match split_lines s' with
           | [] => [String c EmptyString]
           | l :: ls => String c l :: ls
           end
  end.

(** [f.readlines()]. *)
Definition readlines (fs : FileState) : list string :=
  split_lines (read_text fs).

(** [add_note(message)]: the new file state and the returned string. *)
Definition add_note (message : string) (fs : FileState) : string * FileState :=
  let fs1 := ensure_file fs in
  let fs2 := append_text (message +:+ String LF EmptyString) fs1 in
  (note_saved, fs2).

(** [read_notes()]. *)
Definition read_notes (fs : FileState) : string * FileState :=
  let fs1 := ensure_file fs in
  let content := strip (read_text fs1) in
  ((if truthy content then content else no_notes_yet), fs1).

(** [get_latest_note()]. *)
Definition get_latest_note (fs : FileState) : string * FileState :=
  let fs1 := ensure_file fs in
  let lines := readlines fs1 in
  (match last lines with
   | Some l => strip l
   | None => no_notes_yet
   end, fs1).

(** [note_summary_prompt()]. *)
Definition note_summary_prompt (fs : FileState) : string * FileState :=
  let fs1 := ensure_file fs in
  let content := strip (read_text fs1) in
  ((if truthy content then "Summarize the current notes: " +:+ content
    else "There are no notes yet."), fs1).

(** The stored text, the empty string when there is no file. *)
Definition stored (fs : FileState) : string := default EmptyString fs.

(** The file is absent, empty, or holds only whitespace. *)
Definition absent_or_blank (fs : FileState) : bool :=
  match fs with
  | None => true
  | Some raw => blank raw
  end.

(** The file is absent, empty, or its text ends with a line feed: the
    states that [add_note] alone produces. *)
Definition well_terminated (fs : FileState) : bool :=
  match fs with
  | None => true
  | Some raw => bool_decide (raw = EmptyString) || ends_with LF raw
  end.

End Notes.

(* ===================================================================== *)
(** ** Python values, exceptions and outcomes                             *)
(* ===================================================================== *)

Module Py.

(** The values the client handles: JSON-like data (the message dicts it
    builds, the decoded tool arguments) and library objects read through
    their attributes ([PObject], a class name and its fields in
    declaration order). *)
Inductive PyVal : Type :=
| PNone
| PBool (b : bool)
| PInt (z : Z)
| PStr (s : string)
| PList (items : list PyVal)
| PDict (entries : list (string * PyVal))
| PObject (cls : string) (fields : list (string * PyVal)).

(** Exceptions.  [KeyboardInterrupt] derives from [BaseException] only;
    every other one is an [Exception].  [JSONDecodeError], raised by
    [json.loads], carries the document it could not decode and is a
    subclass of [ValueError].  [LibraryError] is any exception of the
    openai or mcp packages, by class name. *)
Inductive PyExc : Type :=
| KeyboardInterrupt
| ValueError (msg : string)
| JSONDecodeError (doc : string)
| IndexError (msg : string)
| AttributeError (attr : string)
| EOFError
| LibraryError (cls : string) (msg : string).


(** [isinstance(e, Exception)]. *)
Definition is_Exception (e : PyExc) : bool :=
  match e with KeyboardInterrupt => false | _ => true end.

(** [isinstance(e, ValueError)]. *)
Definition is_ValueError (e : PyExc) : bool :=
  match e with ValueError _ | JSONDecodeError _ => true | _ => false end.

Inductive Outcome (A : Type) : Type :=
| Return (a : A)
| Raise (e : PyExc).
Global Arguments Return {A} a.
Global Arguments Raise {A} e.

(** Truthiness ([if v:]).  Library objects define neither [__bool__] nor
    [__len__], so they are true. *)
Definition py_truthy (v : PyVal) : bool :=
  match v with
  | PNone => false
  | PBool b => b
  | PInt z => negb (z =? 0)%Z
  | PStr s => PyStr.truthy s
  | PList l => match l with [] => false | _ => true end
  | PDict d => match d with [] => false | _ => true end
  | PObject _ _ => true
  end.

(** Truthiness of an optional string ([None] or a [str]). *)
Definition opt_truthy (o : option string) : bool :=
  match o with Some s => PyStr.truthy s | None => false end.

Fixpoint assoc (k : string) (d : list (string * PyVal)) : option PyVal :=
  match d with
  | [] => None
  | (k', v) :: d' => if String.eqb k k' then Some v else assoc k d'
  end.

(** [d[k] = v] on a dict: the value is replaced where the key stands,
    a new key goes last. *)
Fixpoint assoc_set (k : string) (v : PyVal) (d : list (string * PyVal))
  : list (string * PyVal) :=
  match d with
  | [] => [(k, v)]
  | (k', v') :: d' =>
      if String.eqb k k' then (k, v) :: d' else (k', v') :: assoc_set k v d'
  end.

Definition dict_get (k : string) (v : PyVal) : option PyVal :=
  match v with PDict d => assoc k d | _ => None end.

Definition dict_set (k : string) (x : PyVal) (v : PyVal) : PyVal :=
  match v with PDict d => PDict (assoc_set k x d) | _ => v end.

(** [obj.attr]. *)
Definition getattr (v : PyVal) (attr : string) : Outcome PyVal :=
  match v with
  | PObject _ fields =>
      match assoc attr fields with
      | Some x => Return x
      | None => Raise (AttributeError attr)
      end
  | _ => Raise (AttributeError attr)
  end.

(** *** [repr] and [str] *)

Definition hex_digit (n : nat) : ascii :=
  if n <? 10 then ascii_of_nat (48 + n) else ascii_of_nat (87 + n).

(** [str.isprintable] on one character below 256. *)
Definition is_printable (c : ascii) : bool :=
  let n := nat_of_ascii c in
  ((32 <=? n) && (n <=? 126)) || ((161 <=? n) && negb (n =? 173)).

Definition repr_char (quote : ascii) (c : ascii) : string :=
  let n := nat_of_ascii c in
  if Ascii.eqb c quote || Ascii.eqb c "\"%char then String "\"%char (String c EmptyString)
  else if n =? 9 then "\t"
  else if n =? 10 then "\n"
  else if n =? 13 then "\r"
  else if is_printable c then String c EmptyString
  else String "\"%char (String "x"%char
         (String (hex_digit (n / 16)) (String (hex_digit (n mod 16)) EmptyString))).

Fixpoint repr_chars (quote : ascii) (s : string) : string :=
  match s with
  | EmptyString => EmptyString
  | String c s' => repr_char quote c +:+ repr_chars quote s'
  end.

Definition squote : ascii := "'"%char.
Definition dquote : ascii := ascii_of_nat 34.

(** [repr(s)] of a [str]: single quotes, unless the text has a single
    quote and no double quote. *)
Definition str_repr (s : string) : string :=
  let quote :=
    if PyStr.contains squote s && negb (PyStr.contains dquote s)
    then dquote else squote in
  String quote (repr_chars quote s +:+ String quote EmptyString).

Fixpoint join (sep : string) (l : list string) : string :=
  match l with
  | [] => EmptyString
  | [x] => x
  | x :: l' => x +:+ sep +:+ join sep l'
  end.

Fixpoint py_repr (v : PyVal) : string :=
  match v with
  | PNone => "None"
  | PBool true => "True"
  | PBool false => "False"
  | PInt z => pretty z
  | PStr s => str_repr s
  | PList l => "[" +:+ join ", " (List.map py_repr l) +:+ "]"
  | PDict d =>
      "{" +:+ join ", "
        (List.map (fun kv => str_repr (fst kv) +:+ ": " +:+ py_repr (snd kv)) d)
      +:+ "}"
  | PObject cls fields =>
      cls +:+ "(" +:+ join ", "
        (List.map (fun kv => fst kv +:+ "=" +:+ py_repr (snd kv)) fields)
      +:+ ")"
  end.

(** [str(v)]: the text itself for a [str]; the fields separated by a
    space for a library (pydantic) object; [repr] otherwise. *)
Definition py_str (v : PyVal) : string :=
  match v with
  | PStr s => s
  | PObject _ fields =>
      join " " (List.map (fun kv => fst kv +:+ "=" +:+ py_repr (snd kv)) fields)
  | _ => py_repr v
  end.

End Py.

(* ===================================================================== *)
(** ** client-stdio.py: the orchestrating client                          *)
(* ===================================================================== *)

Module Client.
Import Py.

(** *** Library data the client reads *)

(** An entry of [tools_result.tools]. *)
Record Tool := {
  tool_name : string;
  tool_description : PyVal;
  inputSchema : PyVal;
}.

(** [tc.function] and [tc] of [assistant_message.tool_calls]. *)
Record Function := {
  fn_name : string;
  fn_arguments : string;
}.

Record ToolCall := {
  tc_id : string;
  tc_type : string;
  tc_function : Function;
}.

(** [response.choices[i].message]: [content] is a [str] or [None],
    [tool_calls] a list or [None]. *)
Record ChatCompletionMessage := {
  msg_content : option string;
  msg_tool_calls : option (list ToolCall);
}.

Record Choice := { message : ChatCompletionMessage }.

Record ChatCompletion := { choices : list Choice }.

(** The result of [session.call_tool]. *)
Record CallToolResult := {
  result_content : PyVal;
  isError : bool;
}.

(** The keyword arguments of [chat.completions.create]. *)
Record ChatRequest := {
  model : string;
  messages : list PyVal;
  tools : list PyVal;
  tool_choice : string;
}.

(** *** What the program prints, one constructor for each [print] *)
Inductive Output : Type :=
| OutConnected                               (* "Connected to server with tools:" *)
| OutTool (name : string) (description : PyVal)
| OutApiError (e : PyExc)                    (* "Error calling Azure OpenAI: {e}" *)
| OutDeploymentUsed (deployment : string)    (* "Deployment name used: ..." *)
| OutCheckConfiguration (line : nat)         (* the four advice lines, 0..3 *)
| OutBanner (line : nat)                     (* the four banner lines, 0..3 *)
| OutGoodbye                                 (* "Goodbye!" *)
| OutEmptyInput                              (* "Please enter a question or request." *)
| OutProcessing (user_input : string)        (* "Processing: {user_input}" *)
| OutAssistant (response : option string)    (* "Assistant: {response}" *)
| OutQueryError (e : PyExc)                  (* "Error processing query: {e}" *)
| OutConfigurationError (e : PyExc)          (* "Configuration error: {e}" and advice *)
| OutError (e : PyExc).                      (* "Error: {e}" *)

(** *** The transcript of a run: every call that leaves the process,
    with what came back, and every line printed *)
Inductive Event : Type :=
| EvConnect (r : Outcome unit)
| EvListTools (r : Outcome (list Tool))
| EvChatCreate (req : ChatRequest) (r : Outcome ChatCompletion)
| EvCallTool (name : string) (arguments : PyVal) (r : Outcome CallToolResult)
| EvClose (r : Outcome unit)
| EvPrint (o : Output).

(** *** The interfaces of the libraries, over a state of the outside
    world [W] *)

(** [self.session] (with the transport that carries it). *)
Class ClientSession (W : Type) := {
  connect : W -> Outcome unit * W;
  list_tools : W -> Outcome (list Tool) * W;
  call_tool : string -> PyVal -> W -> Outcome CallToolResult * W;
  aclose : W -> Outcome unit * W;
}.

(** [self.openai_client.chat.completions]. *)
Class ChatCompletions (W : Type) := {
  create : ChatRequest -> W -> Outcome ChatCompletion * W;
}.

(** [json.loads] on a [str]: the decoded value, or [None] where the
    library raises [JSONDecodeError]. *)
Class JsonDecoder := {
  json_loads : string -> option PyVal;
}.

(** *** Computations: a world state in, an outcome, the next world state
    and the events of the step out *)
Definition M (W A : Type) : Type := W -> Outcome A * W * list Event.

Definition ret {W A} (a : A) : M W A := fun w => (Return a, w, []).

Definition raise {W A} (e : PyExc) : M W A := fun w => (Raise e, w, []).

Definition bind {W A B} (m : M W A) (k : A -> M W B) : M W B :=
  fun w =>
    match m w with
    | (Return a, w1, ev1) =>
        match k a w1 with
        | (r, w2, ev2) => (r, w2, ev1 ++ ev2)
        end
    | (Raise e, w1, ev1) => (Raise e, w1, ev1)
    end.

(** [try: m / except ...: h e], where [h] decides what it handles by
    returning [None] for an exception that passes through. *)
Definition try_except {W A} (m : M W A) (h : PyExc -> option (M W A)) : M W A :=
  fun w =>
    match m w with
    | (Return a, w1, ev1) => (Return a, w1, ev1)
    | (Raise e, w1, ev1) =>
        match h e with
        | Some handler =>
            match handler w1 with
            | (r, w2, ev2) => (r, w2, ev1 ++ ev2)
            end
        | None => (Raise e, w1, ev1)
        end
    end.

Definition lift {W A} (o : Outcome A) : M W A := fun w => (o, w, []).

Definition print {W} (o : Output) : M W unit :=
  fun w => (Return tt, w, [EvPrint o]).

Declare Scope py_scope.
Delimit Scope py_scope with py.
Notation "x <- m ;; k" := (bind m (fun x => k))
  (at level 100, m at next level, right associativity) : py_scope.
Notation "m ;; k" := (bind m (fun _ => k))
  (at level 100, right associativity) : py_scope.
Local Open Scope py_scope.

(** The library calls as computations that log themselves. *)
Section Calls.
Context {W : Type} `{ClientSession W} `{ChatCompletions W} `{JsonDecoder}.

Definition session_connect : M W unit :=
  fun w => let '(r, w') := connect w in (r, w', [EvConnect r]).

Definition session_list_tools : M W (list Tool) :=
  fun w => let '(r, w') := list_tools w in (r, w', [EvListTools r]).

Definition session_call_tool (name : string) (arguments : PyVal)
  : M W CallToolResult :=
  fun w => let '(r, w') := call_tool name arguments w in
           (r, w', [EvCallTool name arguments r]).

Definition exit_stack_aclose : M W unit :=
  fun w => let '(r, w') := aclose w in (r, w', [EvClose r]).

Definition chat_completions_create (req : ChatRequest) : M W ChatCompletion :=
  fun w => let '(r, w') := create req w in (r, w', [EvChatCreate req r]).

Definition json_loads_str (s : string) : M W PyVal :=
  match json_loads s with
  | Some v => ret v
  | None => raise (JSONDecodeError s)
  end.
End Calls.

(** *** [MCPAzureOpenAIClient] *)

Record MCPAzureOpenAIClient := {
  deployment_name : string;
  api_key : string;
  azure_endpoint : string;
  api_version : string;
}.

Definition missing_configuration : string :=
  "Missing required Azure OpenAI configuration. Please set AZURE_OPENAI_API_KEY, "
  +:+ "AZURE_OPENAI_ENDPOINT, and AZURE_OPENAI_DEPLOYMENT_NAME in your .env file.".

(** [x or y] on optional strings. *)
Definition or_else (x y : option string) : option string :=
  if opt_truthy x then x else y.

(** [__init__(self, deployment_name=None)], reading [os.environ]. *)
Definition init (environ : gmap string string) (deployment_name : option string)
  : Outcome MCPAzureOpenAIClient :=
  let api_key := environ !! "AZURE_OPENAI_API_KEY" in
  let endpoint := environ !! "AZURE_OPENAI_ENDPOINT" in
  let api_version := default "2025-01-01" (environ !! "AZURE_OPENAI_API_VERSION") in
  let self_deployment_name :=
    or_else deployment_name (environ !! "AZURE_OPENAI_DEPLOYMENT_NAME") in
  if negb (forallb opt_truthy [api_key; endpoint; self_deployment_name])
  then Raise (ValueError missing_configuration)
  else Return {| deployment_name := default "" self_deployment_name;
                 api_key := default "" api_key;
                 azure_endpoint := default "" endpoint;
                 api_version := api_version |}.

(** The message dicts. *)
Definition user_message (query : string) : PyVal :=
  PDict [("role", PStr "user"); ("content", PStr query)].

Definition tool_message (tool_call_id tool_content : string) : PyVal :=
  PDict [("role", PStr "tool");
         ("tool_call_id", PStr tool_call_id);
         ("content", PStr tool_content)].

Definition tool_call_dict (tc : ToolCall) : PyVal :=
  PDict [("id", PStr (tc_id tc));
         ("type", PStr (tc_type tc));
         ("function", PDict [("name", PStr (fn_name (tc_function tc)));
                             ("arguments", PStr (fn_arguments (tc_function tc)))])].

Definition tool_schema (tool : Tool) : PyVal :=
  PDict [("type", PStr "function");
         ("function", PDict [("name", PStr (tool_name tool));
                             ("description", tool_description tool);
                             ("parameters", inputSchema tool)])].

(** Truthiness of [assistant_message.tool_calls]. *)
Definition tool_calls_truthy (tcs : option (list ToolCall)) : bool :=
  match tcs with
  | Some (_ :: _) => true
  | _ => false
  end.

(** The Tool Call Requests of an assistant message: none when
    [tool_calls] is [None]. *)
Definition requests (m : ChatCompletionMessage) : list ToolCall :=
  default [] (msg_tool_calls m).

(** [assistant_msg] as lines 129-151 build it. *)
Definition assistant_msg_of (assistant_message : ChatCompletionMessage) : PyVal :=
  let assistant_msg := PDict [("role", PStr "assistant")] in
  let assistant_msg :=
    if opt_truthy (msg_content assistant_message)
    then dict_set "content" (PStr (default "" (msg_content assistant_message)))
           assistant_msg
    else dict_set "content" (PStr "") assistant_msg in
  if tool_calls_truthy (msg_tool_calls assistant_message)
  then dict_set "tool_calls"
         (PList (List.map tool_call_dict (requests assistant_message)))
         assistant_msg
  else assistant_msg.

(** [tool_content] as lines 167-172 compute it from [result]. *)
Definition tool_content_of (result : CallToolResult) : Outcome string :=
  let content := result_content result in
  if py_truthy content then
    match content with
    | PList (first :: _) =>
        match getattr first "text" with
        | Return text => Return (py_str text)
        | Raise e => Raise e
        end
    | _ => Return (py_str content)
    end
  else Return "".

(** [xs[0]] on a list. *)
Definition index0 {A} (xs : list A) : Outcome A :=
  match xs with
  | x :: _ => Return x
  | [] => Raise (IndexError "list index out of range")
  end.

Section Orchestration.
Context {W : Type} `{ClientSession W} `{ChatCompletions W} `{JsonDecoder}.

(** [connect_to_server]. *)
Definition connect_to_server : M W unit :=
  session_connect ;;
  tools_result <- session_list_tools ;;
  print OutConnected ;;
  fold_right (fun tool k => print (OutTool (tool_name tool) (tool_description tool)) ;; k)
    (ret tt) tools_result.

(** [get_mcp_tools]. *)
Definition get_mcp_tools : M W (list PyVal) :=
  tools_result <- session_list_tools ;;
  ret (List.map tool_schema tools_result).

(** The [for tool_call in assistant_message.tool_calls] loop, lines
    161-180, from the message list built so far. *)
Fixpoint resolve_tool_calls (tool_calls : list ToolCall) (msgs : list PyVal)
  : M W (list PyVal) :=
  match tool_calls with
  | [] => ret msgs
  | tool_call :: rest =>
      arguments <- json_loads_str (fn_arguments (tc_function tool_call)) ;;
      result <- session_call_tool (fn_name (tc_function tool_call)) arguments ;;
      tool_content <- lift (tool_content_of result) ;;
      resolve_tool_calls rest
        (msgs ++ [tool_message (tc_id tool_call) tool_content])
  end.

(** The handler of lines 118-125: report, then re-raise. *)
Definition report_api_error (self : MCPAzureOpenAIClient) (e : PyExc)
  : option (M W ChatCompletion) :=
  if is_Exception e then
    Some (print (OutApiError e) ;;
          print (OutDeploymentUsed (deployment_name self)) ;;
          print (OutCheckConfiguration 0) ;;
          print (OutCheckConfiguration 1) ;;
          print (OutCheckConfiguration 2) ;;
          print (OutCheckConfiguration 3) ;;
          raise e)
  else None.

(** The keyword arguments of the first call, lines 112-117, and of
    the second, lines 183-188. *)
Definition first_request (self : MCPAzureOpenAIClient) (query : string)
    (tools : list PyVal) : ChatRequest :=
  {| model := deployment_name self;
     messages := [user_message query];
     tools := tools;
     tool_choice := "auto" |}.

Definition second_request (self : MCPAzureOpenAIClient) (msgs : list PyVal)
    (tools : list PyVal) : ChatRequest :=
  {| model := deployment_name self;
     messages := msgs;
     tools := tools;
     tool_choice := "none" |}.

(** [process_query]. *)
Definition process_query (self : MCPAzureOpenAIClient) (query : string)
  : M W (option string) :=
  tools <- get_mcp_tools ;;
  response <-
    try_except
      (chat_completions_create (first_request self query tools))
      (report_api_error self) ;;
  choice <- lift (index0 (choices response)) ;;
  let assistant_message := message choice in
  let assistant_msg := assistant_msg_of assistant_message in
  let msgs := [user_message query; assistant_msg] in
  if tool_calls_truthy (msg_tool_calls assistant_message) then
    msgs <- resolve_tool_calls (requests assistant_message) msgs ;;
    final_response <-
      chat_completions_create (second_request self msgs tools) ;;
    final_choice <- lift (index0 (choices final_response)) ;;
    ret (msg_content (message final_choice))
  else
    ret (msg_content assistant_message).

(** *** The interactive loop *)

(** What one call of [input()] meets. *)
Inductive InputEvent : Type :=
| Line (text : string)
| CtrlC
| EndOfFile.

Definition input (ev : InputEvent) : M W string :=
  match ev with
  | Line text => ret text
  | CtrlC => raise KeyboardInterrupt
  | EndOfFile => raise EOFError
  end.

Inductive Control : Type := Break | Continue.

Definition exit_words : list string := ["exit"; "quit"; "bye"].

(** The body of the inner [try], lines 214-228. *)
Definition loop_body (client : MCPAzureOpenAIClient) (ev : InputEvent)
  : M W Control :=
  raw <- input ev ;;
  let user_input := PyStr.strip raw in
  if bool_decide (PyStr.lower user_input ∈ exit_words) then
    print OutGoodbye ;; ret Break
  else if bool_decide (user_input = "") then
    print OutEmptyInput ;; ret Continue
  else
    print (OutProcessing user_input) ;;
    response <- process_query client user_input ;;
    print (OutAssistant response) ;;
    ret Continue.

(** The handlers of the inner [try], lines 230-234. *)
Definition loop_handlers (e : PyExc) : option (M W Control) :=
  match e with
  | KeyboardInterrupt => Some (print OutGoodbye ;; ret Break)
  | _ => Some (print (OutQueryError e) ;; ret Continue)
  end.

(** How a run over finitely many input events ends: the loop was left,
    or it is back at [input()] with nothing to read yet. *)
Inductive LoopStatus : Type := Exited | AwaitingInput.

(** [while True:] over the input events at hand. *)
Fixpoint query_loop (client : MCPAzureOpenAIClient) (inputs : list InputEvent)
  : M W LoopStatus :=
  match inputs with
  | [] => ret AwaitingInput
  | ev :: rest =>
      control <- try_except (loop_body client ev) loop_handlers ;;
      match control with
      | Break => ret Exited
      | Continue => query_loop client rest
      end
  end.

(** The handlers of the outer [try], lines 236-240. *)
Definition outer_handlers (e : PyExc) : option (M W LoopStatus) :=
  if is_ValueError e then Some (print (OutConfigurationError e) ;; ret Exited)
  else if is_Exception e then Some (print (OutError e) ;; ret Exited)
  else None.

(** [try: m / finally: f], for a run that may still be waiting inside
    [m]: the [finally] clause runs once [m] is left. *)
Definition try_finally (m : M W LoopStatus) (f : M W unit) : M W LoopStatus :=
  fun w =>
    match m w with
    | (Return AwaitingInput, w1, ev1) => (Return AwaitingInput, w1, ev1)
    | (Return Exited, w1, ev1) =>
        match f w1 with
        | (Return _, w2, ev2) => (Return Exited, w2, ev1 ++ ev2)
        | (Raise e, w2, ev2) => (Raise e, w2, ev1 ++ ev2)
        end
    | (Raise e, w1, ev1) =>
        match f w1 with
        | (Return _, w2, ev2) => (Raise e, w2, ev1 ++ ev2)
        | (Raise e', w2, ev2) => (Raise e', w2, ev1 ++ ev2)
        end
    end.

(** [interactive_azure_openai]: the client is built before the [try]. *)
Definition interactive_azure_openai
    (environ : gmap string string) (inputs : list InputEvent) : M W LoopStatus :=
  client <- lift (init environ None) ;;
  try_finally
    (try_except
       (connect_to_server ;;
        print (OutBanner 0) ;; print (OutBanner 1) ;;
        print (OutBanner 2) ;; print (OutBanner 3) ;;
        query_loop client inputs)
       outer_handlers)
    exit_stack_aclose.

End Orchestration.

(** *** Reading a run and its transcript *)

Definition outcome {W A} (run : Outcome A * W * list Event) : Outcome A :=
  fst (fst run).

Definition final_world {W A} (run : Outcome A * W * list Event) : W :=
  snd (fst run).

Definition transcript {W A} (run : Outcome A * W * list Event) : list Event :=
  snd run.

(** The model calls of a transcript, in order. *)
Fixpoint chat_calls (evs : list Event) : list (ChatRequest * Outcome ChatCompletion) :=
  match evs with
  | [] => []
  | EvChatCreate req r :: evs' => (req, r) :: chat_calls evs'
  | _ :: evs' => chat_calls evs'
  end.

(** The tool invocations of a transcript, in order. *)
Fixpoint tool_invocations (evs : list Event)
  : list (string * PyVal * Outcome CallToolResult) :=
  match evs with
  | [] => []
  | EvCallTool name arguments r :: evs' => (name, arguments, r) :: tool_invocations evs'
  | _ :: evs' => tool_invocations evs'
  end.

(** A Tool Call Request, the invocation logged for it and the message
    appended for it belong together: the arguments decoded, the tool was
    called under the requested name and returned, and the message carries
    the request's id and the content computed from the result. *)
Definition resolved `{JsonDecoder} (tc : ToolCall)
    (inv : string * PyVal * Outcome CallToolResult) (msg : PyVal) : Prop :=
  exists arguments result content,
    json_loads (fn_arguments (tc_function tc)) = Some arguments
    /\ inv = (fn_name (tc_function tc), arguments, Return result)
    /\ tool_content_of result = Return content
    /\ msg = tool_message (tc_id tc) content.

(** What the handler of lines 118-125 prints for [e]. *)
Definition api_error_report (self : MCPAzureOpenAIClient) (e : PyExc) : list Event :=
  if is_Exception e then
    [EvPrint (OutApiError e); EvPrint (OutDeploymentUsed (deployment_name self));
     EvPrint (OutCheckConfiguration 0); EvPrint (OutCheckConfiguration 1);
     EvPrint (OutCheckConfiguration 2); EvPrint (OutCheckConfiguration 3)]
  else [].

(** [response.choices[0].message.content]. *)
Definition answer_of (response : ChatCompletion) : Outcome (option string) :=
  match choices response with
  | c :: _ => Return (msg_content (message c))
  | [] => Raise (IndexError "list index out of range")
  end.

(** The assistant message of a model response, when it has one. *)
Definition first_message (r : Outcome ChatCompletion) : option ChatCompletionMessage :=
  match r with
  | Return response =>
      match choices response with
      | c :: _ => Some (message c)
      | [] => None
      end
  | Raise _ => None
  end.

End Client.

(* ===================================================================== *)
(** ** A decoder and a world to run the client in                         *)
(* ===================================================================== *)

(** A decoder for the part of JSON whose values are in [PyVal]: objects,
    arrays, strings, integers, [true], [false] and [null].  Numbers with a
    fraction or an exponent and escapes of code points above U+00FF have
    no value in [PyVal] and are not decoded. *)
Module Json.
Import Py.

Definition is_ws (c : ascii) : bool :=
  let n := nat_of_ascii c in
  (n =? 32) || (n =? 9) || (n =? 10) || (n =? 13).

Fixpoint skip_ws (s : string) : string :=
  match s with
  | String c s' => if is_ws c then skip_ws s' else s
  | EmptyString => EmptyString
  end.

Definition digit_value (c : ascii) : option nat :=
  let n := nat_of_ascii c in
  if (48 <=? n) && (n <=? 57) then Some (n - 48) else None.

Definition hex_value (c : ascii) : option nat :=
  let n := nat_of_ascii c in
  if (48 <=? n) && (n <=? 57) then Some (n - 48)
  else if (97 <=? n) && (n <=? 102) then Some (n - 87)
  else if (65 <=? n) && (n <=? 70) then Some (n - 55)
  else None.

(** The digits at the head of [s], as a number, and what follows. *)
Fixpoint digits (acc : Z) (s : string) : Z * string :=
  match s with
  | String c s' =>
      match digit_value c with
      | Some d => digits (10 * acc + Z.of_nat d)%Z s'
      | None => (acc, s)
      end
  | EmptyString => (acc, s)
  end.

Definition starts_fraction (s : string) : bool :=
  match s with
  | String c _ => Ascii.eqb c "."%char || Ascii.eqb c "e"%char || Ascii.eqb c "E"%char
  | EmptyString => false
  end.

(** [0] or a digit sequence without a leading zero. *)
Definition natural (s : string) : option (Z * string) :=
  match s with
  | String c s' =>
      match digit_value c with
      | Some 0 => if starts_fraction s' then None else Some (0%Z, s')
      | Some _ =>
          let '(z, rest) := digits 0%Z s in
          if starts_fraction rest then None else Some (z, rest)
      | None => None
      end
  | EmptyString => None
  end.

Definition integer (s : string) : option (Z * string) :=
  match s with
  | String c s' =>
      if Ascii.eqb c "-"%char
      then match natural s' with
           | Some (z, rest) => Some ((- z)%Z, rest)
           | None => None
           end
      else natural s
  | EmptyString => None
  end.

(** The text of a string literal from just after its opening quote, and
    what follows the closing quote. *)
Fixpoint string_body (s : string) : option (string * string) :=
  match s with
  | EmptyString => None
  | String c s' =>
      if Ascii.eqb c dquote then Some (EmptyString, s')
      else if Ascii.eqb c "\"%char then
        match s' with
        | String e s'' =>
            let simple (x : ascii) :=
              match string_body s'' with
              | Some (t, rest) => Some (String x t, rest)
              | None => None
              end in
            if Ascii.eqb e dquote then simple dquote
            else if Ascii.eqb e "\"%char then simple "\"%char
            else if Ascii.eqb e "/"%char then simple "/"%char
            else if Ascii.eqb e "b"%char then simple (ascii_of_nat 8)
            else if Ascii.eqb e "f"%char then simple (ascii_of_nat 12)
            else if Ascii.eqb e "n"%char then simple PyStr.LF
            else if Ascii.eqb e "r"%char then simple PyStr.CR
            else if Ascii.eqb e "t"%char then simple (ascii_of_nat 9)
            else if Ascii.eqb e "u"%char then
              match s'' with
              | String h1 (String h2 (String h3 (String h4 s5))) =>
                  match hex_value h1, hex_value h2, hex_value h3, hex_value h4 with
                  | Some 0, Some 0, Some a, Some b =>
                      match string_body s5 with
                      | Some (t, rest) => Some (String (ascii_of_nat (16 * a + b)) t, rest)
                      | None => None
                      end
                  | _, _, _, _ => None
                  end
              | _ => None
              end
            else None
        | EmptyString => None
        end
      else if nat_of_ascii c <? 32 then None
      else
        match string_body s' with
        | Some (t, rest) => Some (String c t, rest)
        | None => None
        end
  end.

(** [s] without the prefix [p], when it starts with it. *)
Fixpoint after_prefix (p s : string) : option string :=
  match p, s with
  | EmptyString, _ => Some s
  | String a p', String b s' => if Ascii.eqb a b then after_prefix p' s' else None
  | String _ _, EmptyString => None
  end.

(** A dict from its pairs: a repeated key keeps its place and takes the
    last value. *)
Definition dict_of_pairs (pairs : list (string * PyVal)) : PyVal :=
  PDict (fold_left (fun d kv => assoc_set (fst kv) (snd kv) d) pairs []).

Fixpoint value (fuel : nat) (s : string) : option (PyVal * string) :=
  match fuel with
  | 0 => None
  | S fuel' =>
      match s with
      | EmptyString => None
      | String c s' =>
          if Ascii.eqb c dquote then
            match string_body s' with
            | Some (t, rest) => Some (PStr t, rest)
            | None => None
            end
          else if Ascii.eqb c "["%char then
            match skip_ws s' with
            | String d rest =>
                if Ascii.eqb d "]"%char then Some (PList [], rest)
                else match elements fuel' (String d rest) with
                     | Some (l, rest') => Some (PList l, rest')
                     | None => None
                     end
            | EmptyString => None
            end
          else if Ascii.eqb c "{"%char then
            match skip_ws s' with
            | String d rest =>
                if Ascii.eqb d "}"%char then Some (PDict [], rest)
                else match members fuel' (String d rest) with
                     | Some (l, rest') => Some (dict_of_pairs l, rest')
                     | None => None
                     end
            | EmptyString => None
            end
          else
            match after_prefix "null" s, after_prefix "true" s, after_prefix "false" s with
            | Some rest, _, _ => Some (PNone, rest)
            | _, Some rest, _ => Some (PBool true, rest)
            | _, _, Some rest => Some (PBool false, rest)
            | None, None, None =>
                match integer s with
                | Some (z, rest) => Some (PInt z, rest)
                | None => None
                end
            end
      end
  end

with elements (fuel : nat) (s : string) : option (list PyVal * string) :=
  match fuel with
  | 0 => None
  | S fuel' =>
      match value fuel' s with
      | Some (v, rest) =>
          match skip_ws rest with
          | String d rest' =>
              if Ascii.eqb d ","%char then
                match elements fuel' (skip_ws rest') with
                | Some (l, rest'') => Some (v :: l, rest'')
                | None => None
                end
              else if Ascii.eqb d "]"%char then Some ([v], rest')
              else None
          | EmptyString => None
          end
      | None => None
      end
  end

with members (fuel : nat) (s : string) : option (list (string * PyVal) * string) :=
  match fuel with
  | 0 => None
  | S fuel' =>
      match s with
      | String q s' =>
          if Ascii.eqb q dquote then
            match string_body s' with
            | Some (key, rest) =>
                match skip_ws rest with
                | String colon rest1 =>
                    if Ascii.eqb colon ":"%char then
                      match value fuel' (skip_ws rest1) with
                      | Some (v, rest2) =>
                          match skip_ws rest2 with
                          | String d rest3 =>
                              if Ascii.eqb d ","%char then
                                match members fuel' (skip_ws rest3) with
                                | Some (l, rest4) => Some ((key, v) :: l, rest4)
                                | None => None
                                end
                              else if Ascii.eqb d "}"%char then Some ([(key, v)], rest3)
                              else None
                          | EmptyString => None
                          end
                      | None => None
                      end
                    else None
                | EmptyString => None
                end
            | None => None
            end
          else None
      | EmptyString => None
      end
  end.

(** [json.loads(s)] on the values above; [None] stands for
    [JSONDecodeError]. *)
Definition loads (s : string) : option PyVal :=
  match value (2 * String.length s + 2) (skip_ws s) with
  | Some (v, rest) =>
      match skip_ws rest with
      | EmptyString => Some v
      | _ => None
      end
  | None => None
  end.

End Json.

(** An example world: the note tools of main.py behind their host, and a
    model that answers from a script.  The host answers as the FastMCP
    host of main.py does: a call that it cannot dispatch (an unregistered
    name, arguments that do not fit the tool) raises nothing in the
    client; it comes back as a result with [isError] set, whose content is
    the text of the host's error. *)
Module Demo.
Import Py Client.

Record World := {
  notes : Notes.FileState;
  replies : list (Outcome ChatCompletion);
}.

Definition string_schema (param : string) : PyVal :=
  PDict [("type", PStr "object");
         ("properties", PDict [(param, PDict [("type", PStr "string")])]);
         ("required", PList [PStr param])].

Definition add_note_tool : Tool :=
  {| tool_name := "add_note";
     tool_description := PStr "Append a new note to the sticky note file.";
     inputSchema := string_schema "message" |}.

Definition read_notes_tool : Tool :=
  {| tool_name := "read_notes";
     tool_description := PStr "Read and return all notes from the sticky note file.";
     inputSchema := PDict [("type", PStr "object"); ("properties", PDict [])] |}.

Definition text_content (text : string) : PyVal :=
  PObject "TextContent" [("type", PStr "text"); ("text", PStr text)].

Definition text_result (text : string) : CallToolResult :=
  {| result_content := PList [text_content text]; isError := false |}.

(** The result of a call the host could not carry out. *)
Definition error_result (text : string) : CallToolResult :=
  {| result_content := PList [text_content text]; isError := true |}.

(** The host's text for a name that is not registered. *)
Definition unknown_tool_text (name : string) : string :=
  String.append "Unknown tool: " name.

(** The head of the host's text for arguments that do not fit; the report
    of the validation that follows it is left out. *)
Definition invalid_arguments_text (name : string) : string :=
  String.append "Error executing tool " name.

Definition host_call_tool (name : string) (arguments : PyVal) (w : World)
  : Outcome CallToolResult * World :=
  if String.eqb name "add_note" then
    match dict_get "message" arguments with
    | Some (PStr m) =>
        let '(r, fs) := Notes.add_note m (notes w) in
        (Return (text_result r), {| notes := fs; replies := replies w |})
    | _ => (Return (error_result (invalid_arguments_text name)), w)
    end
  else if String.eqb name "read_notes" then
    let '(r, fs) := Notes.read_notes (notes w) in
    (Return (text_result r), {| notes := fs; replies := replies w |})
  else (Return (error_result (unknown_tool_text name)), w).

#[export] Instance demo_session : ClientSession World := {|
  connect w := (Return tt, w);
  list_tools w := (Return [add_note_tool; read_notes_tool], w);
  call_tool := host_call_tool;
  aclose w := (Return tt, w);
|}.

#[export] Instance demo_chat : ChatCompletions World := {|
  create _ w :=
    match replies w with
    | r :: rest => (r, {| notes := notes w; replies := rest |})
    | [] => (Raise (LibraryError "APIConnectionError" "Connection error."), w)
    end;
|}.

#[export] Instance demo_json : JsonDecoder := {| json_loads := Json.loads |}.

Definition demo_client : MCPAzureOpenAIClient :=
  {| deployment_name := "gpt-4o";
     api_key := "key";
     azure_endpoint := "https://example.openai.azure.com/";
     api_version := "2025-01-01" |}.

Definition demo_environ : gmap string string :=
  {[ "AZURE_OPENAI_API_KEY" := "key";
     "AZURE_OPENAI_ENDPOINT" := "https://example.openai.azure.com/";
     "AZURE_OPENAI_DEPLOYMENT_NAME" := "gpt-4o" ]}.

Definition tool_call (id name arguments : string) : ToolCall :=
  {| tc_id := id; tc_type := "function";
     tc_function := {| fn_name := name; fn_arguments := arguments |} |}.

Definition reply (content : option string) (tcs : option (list ToolCall))
  : Outcome ChatCompletion :=
  Return {| choices := [ {| message := {| msg_content := content;
                                           msg_tool_calls := tcs |} |} ] |}.

(** [{"message": "<m>"}] as the model writes it. *)
Definition message_arguments (m : string) : string :=
  "{" +:+ String dquote "message" +:+ String dquote ": "
  +:+ String dquote m +:+ String dquote "}".

(** The model asks for two tools, then answers. *)
Definition two_calls : list ToolCall :=
  [tool_call "call_1" "add_note" (message_arguments "buy milk");
   tool_call "call_2" "read_notes" "{}"].

Definition w_two_calls : World :=
  {| notes := None;
     replies := [reply None (Some two_calls); reply (Some "Saved and listed.") None] |}.

(** The model answers at once. *)
Definition w_direct : World :=
  {| notes := None; replies := [reply (Some "Hello!") None] |}.

(** The model asks for a tool that is not registered, then answers. *)
Definition w_unknown_tool : World :=
  {| notes := None;
     replies := [reply None (Some [tool_call "call_1" "no_such_tool" "{}"]);
                 reply (Some "Hello!") None] |}.


End Demo.


(* ===================================================================== *)
(** ** More readers of transcripts, and the paths of a query              *)
(* ===================================================================== *)

Module Observations.
Import Py Client.
Local Open Scope py_scope.

(** The fetches of the tool list in a transcript, in order. *)
Fixpoint list_tools_calls (evs : list Event) : list (Outcome (list Tool)) :=
  match evs with
  | [] => []
  | EvListTools r :: evs' => r :: list_tools_calls evs'
  | _ :: evs' => list_tools_calls evs'
  end.

(** The closings of the session in a transcript, in order. *)
Fixpoint close_calls (evs : list Event) : list (Outcome unit) :=
  match evs with
  | [] => []
  | EvClose r :: evs' => r :: close_calls evs'
  | _ :: evs' => close_calls evs'
  end.

(** What a transcript prints, in order. *)
Fixpoint printed (evs : list Event) : list Output :=
  match evs with
  | [] => []
  | EvPrint o :: evs' => o :: printed evs'
  | _ :: evs' => printed evs'
  end.

(** The answer that the second model call gives to the query. *)
Definition final_answer (r : Outcome ChatCompletion) : Outcome (option string) :=
  match r with
  | Return final_response => answer_of final_response
  | Raise e => Raise e
  end.

(** The exception with which a tool invocation makes the loop fail, if it
    does: the one [call_tool] raised, or the one raised when the content of
    its result is turned into text. *)
Definition invocation_failure (r : Outcome CallToolResult) : option PyExc :=
  match r with
  | Raise e => Some e
  | Return result =>
      match tool_content_of result with
      | Raise e => Some e
      | Return _ => None
      end
  end.

(** What the session prints when a call before the loop raises [e], by
    the handlers of lines 236-240. *)
Definition startup_report (e : PyExc) : Output :=
  if is_ValueError e then OutConfigurationError e else OutError e.

(** The lines [connect_to_server] prints for the tools, lines 76-77. *)
Definition tool_lines (ts : list Tool) : list Event :=
  List.map (fun tool => EvPrint (OutTool (tool_name tool) (tool_description tool))) ts.

(** Notes added one after the other, in the order of the list. *)
Definition add_notes (ms : list string) (fs : Notes.FileState) : Notes.FileState :=
  fold_left (fun fs m => snd (Notes.add_note m fs)) ms fs.

(** A message as the file stores it: followed by a line feed. *)
Definition note_line (m : string) : string :=
  String.append m (String PyStr.LF EmptyString).

(** A message that has neither a line feed nor a carriage return. *)
Definition single_line (m : string) : bool :=
  negb (PyStr.contains PyStr.LF m) && negb (PyStr.contains PyStr.CR m).

Section Paths.
Context {W : Type} `{ClientSession W} `{ChatCompletions W} `{JsonDecoder}.

(** The ways through [process_query], each with the calls that decide it
    and the run it gives: the tool list cannot be fetched (line 108); the
    first model call raises (lines 118-125); its response has no choice
    (line 126); its message has no tool call (line 193); the loop over the
    tool calls raises (lines 161-180); the second model call is made
    (lines 183-190). *)
Inductive query_path (self : MCPAzureOpenAIClient) (query : string) (w : W)
  : Outcome (option string) * W * list Event -> Prop :=
| path_tools_unavailable (e : PyExc) (w1 : W) :
    list_tools w = (Raise e, w1) ->
    query_path self query w (Raise e, w1, [EvListTools (Raise e)])
| path_first_call_raises (ts : list Tool) (w1 : W) (e : PyExc) (w2 : W) :
    list_tools w = (Return ts, w1) ->
    create (first_request self query (List.map tool_schema ts)) w1 = (Raise e, w2) ->
    query_path self query w
      (Raise e, w2,
       [EvListTools (Return ts);
        EvChatCreate (first_request self query (List.map tool_schema ts)) (Raise e)]
       ++ api_error_report self e)
| path_no_choice (ts : list Tool) (w1 : W) (response : ChatCompletion) (w2 : W) :
    list_tools w = (Return ts, w1) ->
    create (first_request self query (List.map tool_schema ts)) w1
    = (Return response, w2) ->
    choices response = [] ->
    query_path self query w
      (Raise (IndexError "list index out of range"), w2,
       [EvListTools (Return ts);
        EvChatCreate (first_request self query (List.map tool_schema ts))
          (Return response)])
| path_direct_answer (ts : list Tool) (w1 : W) (response : ChatCompletion) (w2 : W)
    (c : Choice) (cs : list Choice) :
    list_tools w = (Return ts, w1) ->
    create (first_request self query (List.map tool_schema ts)) w1
    = (Return response, w2) ->
    choices response = c :: cs ->
    tool_calls_truthy (msg_tool_calls (message c)) = false ->
    query_path self query w
      (Return (msg_content (message c)), w2,
       [EvListTools (Return ts);
        EvChatCreate (first_request self query (List.map tool_schema ts))
          (Return response)])
| path_loop_raises (ts : list Tool) (w1 : W) (response : ChatCompletion) (w2 : W)
    (c : Choice) (cs : list Choice) (e : PyExc) (w3 : W) (evs : list Event) :
    list_tools w = (Return ts, w1) ->
    create (first_request self query (List.map tool_schema ts)) w1
    = (Return response, w2) ->
    choices response = c :: cs ->
    tool_calls_truthy (msg_tool_calls (message c)) = true ->
    resolve_tool_calls (requests (message c))
      [user_message query; assistant_msg_of (message c)] w2 = (Raise e, w3, evs) ->
    query_path self query w
      (Raise e, w3,
       [EvListTools (Return ts);
        EvChatCreate (first_request self query (List.map tool_schema ts))
          (Return response)] ++ evs)
| path_second_call (ts : list Tool) (w1 : W) (response : ChatCompletion) (w2 : W)
    (c : Choice) (cs : list Choice) (msgs : list PyVal) (w3 : W) (evs : list Event)
    (r2 : Outcome ChatCompletion) (w4 : W) :
    list_tools w = (Return ts, w1) ->
    create (first_request self query (List.map tool_schema ts)) w1
    = (Return response, w2) ->
    choices response = c :: cs ->
    tool_calls_truthy (msg_tool_calls (message c)) = true ->
    resolve_tool_calls (requests (message c))
      [user_message query; assistant_msg_of (message c)] w2 = (Return msgs, w3, evs) ->
    create (second_request self msgs (List.map tool_schema ts)) w3 = (r2, w4) ->
    query_path self query w
      (final_answer r2, w4,
       [EvListTools (Return ts);
        EvChatCreate (first_request self query (List.map tool_schema ts))
          (Return response)]
       ++ evs
       ++ [EvChatCreate (second_request self msgs (List.map tool_schema ts)) r2]).

(** A computation that never closes the session. *)
Definition keeps_open {A : Type} (m : M W A) : Prop :=
  forall w : W, close_calls (transcript (m w)) = [].

(** The four lines of the banner, lines 207-210. *)
Definition banner : list Event :=
  [EvPrint (OutBanner 0); EvPrint (OutBanner 1);
   EvPrint (OutBanner 2); EvPrint (OutBanner 3)].

(** The body of the outer [try], with its handlers. *)
Definition session_body (client : MCPAzureOpenAIClient) (inputs : list InputEvent)
  : M W LoopStatus :=
  try_except
    (connect_to_server ;;
     print (OutBanner 0) ;; print (OutBanner 1) ;;
     print (OutBanner 2) ;; print (OutBanner 3) ;;
     query_loop client inputs)
    outer_handlers.

End Paths.
End Observations.

(** More worlds to run the client in. *)
Module Worlds.
Import Py Client Demo.


(** The model answers with no choice. *)
Definition w_no_choice : World :=
  {| notes := None; replies := [Return {| choices := [] |}] |}.

(** The user interrupts while the model is asked. *)
Definition w_interrupted : World :=
  {| notes := None; replies := [Raise KeyboardInterrupt] |}.

(** The model asks for a note, then its second answer has no text. *)
Definition w_silent_answer : World :=
  {| notes := None;
     replies := [reply None (Some [tool_call "call_1" "add_note"
                                     (message_arguments "buy milk")]);
                 reply None None] |}.

(** A world whose tool host answers from a script, for results that the
    tools of main.py do not give: each call of a tool takes the next
    outcome, and the session is lost when the script is used up. *)
Record Scripted := {
  tool_outcomes : list (Outcome CallToolResult);
  model_replies : list (Outcome ChatCompletion);
}.

#[export] Instance scripted_session : ClientSession Scripted := {|
  connect w := (Return tt, w);
  list_tools w := (Return [], w);
  call_tool _ _ w :=
    match tool_outcomes w with
    | r :: rest => (r, {| tool_outcomes := rest; model_replies := model_replies w |})
    | [] => (Raise (LibraryError "McpError" "Connection closed"), w)
    end;
  aclose w := (Return tt, w);
|}.

#[export] Instance scripted_chat : ChatCompletions Scripted := {|
  create _ w :=
    match model_replies w with
    | r :: rest => (r, {| tool_outcomes := tool_outcomes w; model_replies := rest |})
    | [] => (Raise (LibraryError "APIConnectionError" "Connection error."), w)
    end;
|}.

(** An image, as a tool may return it: it has no [text]. *)
Definition image_content : PyVal :=
  PObject "ImageContent"
    [("type", PStr "image"); ("data", PStr "iVBORw0KGgo="); ("mimeType", PStr "image/png")].

Definition image_result : CallToolResult :=
  {| result_content := PList [image_content]; isError := false |}.

(** The model asks for a chart and the tool returns an image. *)
Definition w_image_result : Scripted :=
  {| tool_outcomes := [Return image_result];
     model_replies := [reply None (Some [tool_call "call_1" "draw_chart" "{}"]);
                       reply (Some "Here it is.") None] |}.

(** A world in which no server can be started: every call of the session
    fails, and so does the model. *)
Inductive Offline : Type := offline.

Definition connection_refused : PyExc :=
  LibraryError "ConnectionError" "Connection refused".

#[export] Instance offline_session : ClientSession Offline := {|
  connect w := (Raise connection_refused, w);
  list_tools w := (Raise connection_refused, w);
  call_tool _ _ w := (Raise connection_refused, w);
  aclose w := (Return tt, w);
|}.

#[export] Instance offline_chat : ChatCompletions Offline := {|
  create _ w := (Raise connection_refused, w);
|}.

End Worlds.
(* ===================================================================== *)
(** ** Facts about [str] operations                                       *)
(* ===================================================================== *)

#[local] Arguments String.append !_ _ / : simpl nomatch.

Module PyStrFacts.
Import PyStr.

(** Induction that also hands over the tail of the tail, for functions
    that look two characters ahead. *)
Lemma string_pair_ind (P : string -> Prop) :
  P EmptyString ->
  (forall c, P (String c EmptyString)) ->
  (forall c d s, P s -> P (String d s) -> P (String c (String d s))) ->
  forall s, P s.
Proof.
  intros Hnil Hone Hstep s.
  enough (P s /\ forall c, P (String c s)) as [Hs _] by exact Hs.
  induction s as [|d s [IHs IHds]]; split; auto.
Qed.

Lemma append_nil_r (s : string) : s +:+ EmptyString = s.
Proof. induction s as [|c s IH]; simpl; [reflexivity | now rewrite IH]. Qed.

Lemma append_assoc (a b c : string) : (a +:+ b) +:+ c = a +:+ (b +:+ c).
Proof. induction a as [|x a IH]; simpl; [reflexivity | now rewrite IH]. Qed.

Lemma truthy_false (s : string) : truthy s = false <-> s = EmptyString.
Proof. destruct s; simpl; split; congruence. Qed.

Lemma rstrip_blank (s : string) : blank s = true -> rstrip s = EmptyString.
Proof.
  induction s as [|c s IH]; simpl; [reflexivity |].
  intros [Hc Hs]%andb_true_iff. rewrite (IH Hs), Hc. reflexivity.
Qed.

(** What [rstrip] leaves is empty or ends in a character that is not
    whitespace: if it is blank, it is empty. *)
Lemma rstrip_blank_inv (s : string) :
  blank (rstrip s) = true -> rstrip s = EmptyString.
Proof.
  induction s as [|c s IH]; simpl; [reflexivity |].
  destruct (rstrip s) as [|d r] eqn:Hr.
  - destruct (is_space c) eqn:Hc; simpl; [reflexivity |].
    rewrite Hc. discriminate.
  - simpl. intros [_ Hdr]%andb_true_iff. specialize (IH Hdr). discriminate.
Qed.

Lemma blank_rstrip (s : string) : rstrip s = EmptyString -> blank s = true.
Proof.
  induction s as [|c s IH]; simpl; [reflexivity |].
  destruct (rstrip s) as [|d r] eqn:Hr.
  - destruct (is_space c); [intros _; now apply IH | discriminate].
  - discriminate.
Qed.

Lemma lstrip_blank (s : string) : lstrip s = EmptyString <-> blank s = true.
Proof.
  induction s as [|c s IH]; simpl; [easy |].
  destruct (is_space c); simpl; [exact IH | split; discriminate].
Qed.

(** [s.strip()] is empty exactly when [s] has only whitespace. *)
Lemma strip_blank (s : string) : strip s = EmptyString <-> blank s = true.
Proof.
  unfold strip. split.
  - intros H. apply blank_rstrip, rstrip_blank_inv, lstrip_blank, H.
  - intros H. now rewrite (rstrip_blank s H).
Qed.

Lemma rstrip_snoc_space (s : string) (c : ascii) :
  is_space c = true -> rstrip (s +:+ String c EmptyString) = rstrip s.
Proof.
  intros Hc. induction s as [|d s IH]; simpl.
  - now rewrite Hc.
  - now rewrite IH.
Qed.

Lemma strip_snoc_space (s : string) (c : ascii) :
  is_space c = true -> strip (s +:+ String c EmptyString) = strip s.
Proof. intros Hc. unfold strip. now rewrite rstrip_snoc_space. Qed.

Lemma ends_with_cons (c d : ascii) (s : string) :
  s <> EmptyString -> ends_with c (String d s) = ends_with c s.
Proof. destruct s; [congruence | reflexivity]. Qed.

End PyStrFacts.

(* ===================================================================== *)
(** ** main.py: what the note tools return                                *)
(* ===================================================================== *)

Module NotesFacts.
Import PyStr PyStrFacts Notes.

Lemma is_space_LF : is_space LF = true.
Proof. reflexivity. Qed.

Lemma eqb_CR_space (c : ascii) : Ascii.eqb c CR = true -> is_space c = true.
Proof. intros ->%Ascii.eqb_eq. reflexivity. Qed.

(** One step of the translation. *)
Lemma universal_newlines_cons (c : ascii) (s : string) :
  universal_newlines (String c s)
  = if Ascii.eqb c CR then
      match s with
      | String d s'' =>
          if Ascii.eqb d LF then String LF (universal_newlines s'')
          else String LF (universal_newlines s)
      | EmptyString => String LF EmptyString
      end
    else String c (universal_newlines s).
Proof. reflexivity. Qed.

Lemma blank_cons (c : ascii) (s : string) :
  blank (String c s) = is_space c && blank s.
Proof. reflexivity. Qed.

Lemma blank_universal_newlines (s : string) :
  blank (universal_newlines s) = blank s.
Proof.
  induction s as [|c|c d s IHs IHds] using string_pair_ind.
  - reflexivity.
  - rewrite universal_newlines_cons.
    destruct (Ascii.eqb c CR) eqn:Hc; [|reflexivity].
    rewrite !blank_cons, (eqb_CR_space c Hc). reflexivity.
  - rewrite universal_newlines_cons.
    destruct (Ascii.eqb c CR) eqn:Hc.
    + rewrite (blank_cons c), (eqb_CR_space c Hc). cbn [andb].
      destruct (Ascii.eqb d LF) eqn:Hd.
      * apply Ascii.eqb_eq in Hd as ->.
        rewrite !blank_cons, is_space_LF. exact IHs.
      * rewrite (blank_cons LF), is_space_LF. exact IHds.
    + rewrite !(blank_cons c). now rewrite IHds.
Qed.

Lemma universal_newlines_no_CR (s : string) :
  contains CR s = false -> universal_newlines s = s.
Proof.
  induction s as [|c s IH]; [reflexivity |].
  cbn [contains]. intros [Hc Hs]%orb_false_iff.
  rewrite universal_newlines_cons, Ascii.eqb_sym, Hc. now rewrite IH.
Qed.

(** Translation goes through a concatenation whose left part does not
    end in a carriage return. *)
Lemma universal_newlines_app (a b : string) :
  ends_with CR a = false ->
  universal_newlines (a +:+ b) = universal_newlines a +:+ universal_newlines b.
Proof.
  induction a as [|c|c d a IHa IHda] using string_pair_ind.
  - reflexivity.
  - cbn [ends_with]. intros Hc. rewrite Ascii.eqb_sym in Hc.
    cbn [String.append].
    rewrite !(universal_newlines_cons c), Hc. reflexivity.
  - intros Hend. rewrite ends_with_cons in Hend by discriminate.
    change ((String c (String d a)) +:+ b) with (String c (String d (a +:+ b))).
    rewrite !(universal_newlines_cons c). destruct (Ascii.eqb c CR).
    + destruct (Ascii.eqb d LF) eqn:Hd.
      * cbn [String.append]. f_equal.
        destruct a as [|e a]; [reflexivity |].
        rewrite ends_with_cons in Hend by discriminate. now apply IHa.
      * cbn [String.append]. f_equal. now apply IHda.
    + cbn [String.append]. f_equal. now apply IHda.
Qed.

Lemma ends_with_nonempty (c : ascii) (s : string) :
  ends_with c s = true -> s <> EmptyString.
Proof. destruct s; [discriminate | congruence]. Qed.

Lemma universal_newlines_ends_LF (s : string) :
  ends_with LF s = true -> ends_with LF (universal_newlines s) = true.
Proof.
  induction s as [|c|c d s IHs IHds] using string_pair_ind.
  - discriminate.
  - cbn [ends_with]. intros Hc. rewrite Ascii.eqb_sym in Hc.
    apply Ascii.eqb_eq in Hc as ->. reflexivity.
  - intros Hend. rewrite ends_with_cons in Hend by discriminate.
    rewrite universal_newlines_cons. destruct (Ascii.eqb c CR).
    + destruct (Ascii.eqb d LF) eqn:Hd.
      * destruct s as [|e s]; [reflexivity |].
        rewrite ends_with_cons in Hend by discriminate.
        specialize (IHs Hend).
        rewrite ends_with_cons; [exact IHs |].
        now apply ends_with_nonempty with LF.
      * specialize (IHds Hend).
        rewrite ends_with_cons; [exact IHds |].
        now apply ends_with_nonempty with LF.
    + specialize (IHds Hend).
      rewrite ends_with_cons; [exact IHds |].
      now apply ends_with_nonempty with LF.
Qed.

Lemma split_lines_nil (s : string) : split_lines s = [] -> s = EmptyString.
Proof.
  destruct s as [|c s]; [reflexivity |]. cbn [split_lines].
  destruct (Ascii.eqb c LF); [discriminate |].
  destruct (split_lines s); discriminate.
Qed.

(** A text without a line feed, closed by one, is a single line. *)
Lemma split_lines_one (m : string) :
  contains LF m = false ->
  split_lines (m +:+ String LF EmptyString) = [m +:+ String LF EmptyString].
Proof.
  induction m as [|c m IH]; [reflexivity |].
  cbn [contains]. intros [Hc Hm]%orb_false_iff.
  cbn [String.append split_lines].
  rewrite Ascii.eqb_sym, Hc, (IH Hm). reflexivity.
Qed.

(** After a text that ends with a line feed, the lines of what follows
    are its own. *)
Lemma split_lines_app (a b : string) :
  ends_with LF a = true ->
  split_lines (a +:+ b) = split_lines a ++ split_lines b.
Proof.
  induction a as [|c a IH]; [discriminate |].
  destruct a as [|d a].
  - cbn [ends_with]. intros Hc. rewrite Ascii.eqb_sym in Hc.
    cbn [String.append split_lines]. now rewrite Hc.
  - intros Hend. rewrite ends_with_cons in Hend by discriminate.
    specialize (IH Hend).
    change (String c (String d a) +:+ b) with (String c (String d a +:+ b)).
    cbn [split_lines] in *. destruct (Ascii.eqb c LF).
    + now rewrite IH.
    + rewrite IH.
      destruct (Ascii.eqb d LF); [reflexivity |].
      destruct (split_lines a); reflexivity.
Qed.

Lemma last_line_after (old m : string) :
  old = EmptyString \/ ends_with LF old = true ->
  contains LF m = false ->
  last (split_lines (old +:+ m +:+ String LF EmptyString))
  = Some (m +:+ String LF EmptyString).
Proof.
  intros [-> | Hend] Hm.
  - cbn [String.append]. now rewrite split_lines_one.
  - rewrite split_lines_app by exact Hend.
    rewrite split_lines_one by exact Hm. apply last_snoc.
Qed.

Lemma ends_with_LF_not_CR (s : string) :
  ends_with LF s = true -> ends_with CR s = false.
Proof.
  induction s as [|c s IH]; [discriminate |].
  destruct s as [|d s].
  - cbn [ends_with]. intros Hc. rewrite Ascii.eqb_sym in Hc.
    apply Ascii.eqb_eq in Hc as ->. reflexivity.
  - rewrite !(ends_with_cons _ c) by discriminate. exact IH.
Qed.

Lemma contains_snoc (c d : ascii) (s : string) :
  contains c (s +:+ String d EmptyString) = contains c s || Ascii.eqb c d.
Proof.
  induction s as [|e s IH]; cbn [String.append contains].
  - now rewrite orb_false_r.
  - now rewrite IH, orb_assoc.
Qed.

(** What a text-mode read delivers after [add_note]: the old text as it
    reads, then the message and its line feed. *)
Lemma read_after_append (old m : string) :
  old = EmptyString \/ ends_with LF old = true ->
  contains CR m = false ->
  universal_newlines (old +:+ m +:+ String LF EmptyString)
  = universal_newlines old +:+ m +:+ String LF EmptyString.
Proof.
  intros Hold Hm.
  rewrite universal_newlines_app.
  - f_equal. apply universal_newlines_no_CR.
    rewrite contains_snoc, Hm. reflexivity.
  - destruct Hold as [-> | Hend]; [reflexivity |].
    now apply ends_with_LF_not_CR.
Qed.

Lemma well_terminated_stored (fs : FileState) :
  well_terminated fs = true ->
  stored fs = EmptyString \/ ends_with LF (stored fs) = true.
Proof.
  destruct fs as [raw|]; cbn [well_terminated stored default]; [|now left].
  intros [Hnil%bool_decide_eq_true | Hend]%orb_true_iff; [now left | now right].
Qed.

(** ** The claims on main.py *)

(** C9, as the code has it.  [read_notes] returns "No notes yet." when
    the notes file is absent, empty or all whitespace, and otherwise the
    text of the file, as a text-mode read delivers it, with the
    whitespace at both ends removed.  So the default string comes back
    for a file that is not blank only when the stripped text is that
    very string.  Where the stored text has no carriage return, the text
    read is the stored text. *)
Theorem read_notes_default_or_stripped (fs : FileState) :
  (absent_or_blank fs = true -> fst (read_notes fs) = no_notes_yet) /\
  (absent_or_blank fs = false -> fst (read_notes fs) = strip (read_text fs)) /\
  (fst (read_notes fs) = no_notes_yet
   <-> absent_or_blank fs = true \/ strip (read_text fs) = no_notes_yet) /\
  (contains CR (stored fs) = false -> read_text fs = stored fs).
Proof.
  assert (Hblank : strip (read_text (ensure_file fs)) = EmptyString
                   <-> absent_or_blank fs = true).
  { rewrite strip_blank. destruct fs as [raw|]; cbn; [|easy].
    now rewrite blank_universal_newlines. }
  assert (Hread : read_text (ensure_file fs) = read_text fs).
  { now destruct fs. }
  unfold read_notes. cbn [fst].
  destruct (truthy (strip (read_text (ensure_file fs)))) eqn:Ht.
  - assert (Hnb : absent_or_blank fs = false).
    { destruct (absent_or_blank fs); [|reflexivity].
      destruct Hblank as [_ Hb]. rewrite Hb in Ht by reflexivity. discriminate. }
    rewrite Hread, Hnb. repeat split; try congruence.
    + now right.
    + intros [? | ?]; congruence.
    + destruct fs as [raw|]; cbn; [apply universal_newlines_no_CR | reflexivity].
  - apply truthy_false in Ht. apply Hblank in Ht as Hb. rewrite Hb.
    repeat split; try congruence.
    + now left.
    + destruct fs as [raw|]; cbn; [apply universal_newlines_no_CR | reflexivity].
Qed.

(** C9 as stated fails: a file that holds the text "No notes yet." is
    neither absent nor blank, and [read_notes] returns "No notes yet.";
    and a file with a carriage return is not returned as it is stored. *)
Lemma read_notes_default_counterexample :
  (fst (read_notes (Some "No notes yet.")) = "No notes yet."
   /\ absent_or_blank (Some "No notes yet.") = false)
  /\ fst (read_notes (Some (String "a" (String CR (String LF "b")))))
     <> strip (String "a" (String CR (String LF "b"))).
Proof. split; [split; reflexivity | discriminate]. Qed.

(** C10, as the code has it.  For every message [m] with no line feed
    and no carriage return, when the notes file is absent, empty or ends
    with a line feed: [add_note m] returns "Note saved!", the file then
    holds what it held followed by [m] and a line feed, and
    [get_latest_note] then returns [m] stripped. *)
Theorem add_note_then_latest (m : string) (fs : FileState) :
  contains LF m = false ->
  contains CR m = false ->
  well_terminated fs = true ->
  add_note m fs = (note_saved, Some (stored fs +:+ m +:+ String LF EmptyString))
  /\ fst (get_latest_note (snd (add_note m fs))) = strip m.
Proof.
  intros HLF HCR Hfs.
  assert (Hadd : add_note m fs
                 = (note_saved, Some (stored fs +:+ m +:+ String LF EmptyString))).
  { now destruct fs. }
  split; [exact Hadd |].
  rewrite Hadd. cbn [snd get_latest_note ensure_file fst].
  unfold readlines. cbn [read_text].
  apply well_terminated_stored in Hfs.
  rewrite read_after_append by assumption.
  rewrite last_line_after; [now apply strip_snoc_space | | exact HLF].
  destruct Hfs as [-> | Hend]; [now left | right].
  now apply universal_newlines_ends_LF.
Qed.

Lemma add_note_then_latest_witness :
  add_note "buy milk" (Some (String "e" (String "g" (String LF EmptyString))))
  = (note_saved,
     Some (stored (Some (String "e" (String "g" (String LF EmptyString))))
           +:+ "buy milk" +:+ String LF EmptyString))
  /\ fst (get_latest_note
            (snd (add_note "buy milk"
                    (Some (String "e" (String "g" (String LF EmptyString)))))))
     = strip "buy milk".
Proof.
  apply (add_note_then_latest "buy milk"
           (Some (String "e" (String "g" (String LF EmptyString)))));
    reflexivity.
Defined.

(** C10 as stated fails twice.  A message with a carriage return and no
    line feed is read back as two lines, and the latest note is its
    second half; and after a file whose text does not end with a line
    feed, the latest line is the old tail joined to the message. *)
Lemma add_note_then_latest_counterexample :
  (contains LF (String "a" (String CR "b")) = false
   /\ fst (get_latest_note (snd (add_note (String "a" (String CR "b")) None))) = "b"
   /\ strip (String "a" (String CR "b")) <> "b")
  /\ (contains LF "x" = false
      /\ fst (get_latest_note (snd (add_note "x" (Some "abc")))) = "abcx"
      /\ strip "x" <> "abcx").
Proof. repeat split; try reflexivity; discriminate. Qed.

End NotesFacts.

(* ===================================================================== *)
(** ** client-stdio.py: the tool-call resolution protocol                 *)
(* ===================================================================== *)

Module ClientFacts.
Import Py Client.
Local Open Scope py_scope.

Lemma chat_calls_app (a b : list Event) :
  chat_calls (a ++ b) = chat_calls a ++ chat_calls b.
Proof.
  induction a as [|ev a IH]; [reflexivity |].
  destruct ev; cbn [app chat_calls]; now rewrite IH.
Qed.

Lemma tool_invocations_app (a b : list Event) :
  tool_invocations (a ++ b) = tool_invocations a ++ tool_invocations b.
Proof.
  induction a as [|ev a IH]; [reflexivity |].
  destruct ev; cbn [app tool_invocations]; now rewrite IH.
Qed.

Lemma chat_calls_api_error_report (self : MCPAzureOpenAIClient) (e : PyExc) :
  chat_calls (api_error_report self e) = [].
Proof. unfold api_error_report. now destruct (is_Exception e). Qed.

Lemma tool_invocations_api_error_report (self : MCPAzureOpenAIClient) (e : PyExc) :
  tool_invocations (api_error_report self e) = [].
Proof. unfold api_error_report. now destruct (is_Exception e). Qed.

(** *** What [tool_content_of] computes *)

Lemma tool_content_falsy (result : CallToolResult) :
  py_truthy (result_content result) = false ->
  tool_content_of result = Return EmptyString.
Proof. unfold tool_content_of. now intros ->. Qed.

Lemma tool_content_list (result : CallToolResult) (first : PyVal) (others : list PyVal) :
  result_content result = PList (first :: others) ->
  tool_content_of result
  = match getattr first "text" with
    | Return text => Return (py_str text)
    | Raise e => Raise e
    end.
Proof. unfold tool_content_of. now intros ->. Qed.

Lemma tool_content_other (result : CallToolResult) :
  py_truthy (result_content result) = true ->
  (forall items, result_content result <> PList items) ->
  tool_content_of result = Return (py_str (result_content result)).
Proof.
  unfold tool_content_of. intros -> Hnl.
  destruct (result_content result) as [| | | |items| |]; try reflexivity.
  now destruct (Hnl items).
Qed.

(** *** What [assistant_msg_of] builds *)

Lemma assistant_msg_with_calls (am : ChatCompletionMessage) :
  tool_calls_truthy (msg_tool_calls am) = true ->
  assistant_msg_of am
  = PDict [("role", PStr "assistant");
           ("content", PStr (default "" (msg_content am)));
           ("tool_calls", PList (List.map tool_call_dict (requests am)))].
Proof.
  unfold assistant_msg_of. intros ->.
  destruct (msg_content am) as [[|c s]|]; reflexivity.
Qed.

Lemma assistant_msg_without_calls (am : ChatCompletionMessage) :
  tool_calls_truthy (msg_tool_calls am) = false ->
  assistant_msg_of am
  = PDict [("role", PStr "assistant");
           ("content", PStr (default "" (msg_content am)))].
Proof.
  unfold assistant_msg_of. intros ->.
  destruct (msg_content am) as [[|c s]|]; reflexivity.
Qed.

Lemma tool_calls_truthy_requests (am : ChatCompletionMessage) :
  tool_calls_truthy (msg_tool_calls am) = true <-> requests am <> [].
Proof.
  unfold requests. destruct (msg_tool_calls am) as [[|tc tcs]|]; cbn; split;
    congruence.
Qed.

Section Protocol.
Context {W : Type} `{ClientSession W} `{ChatCompletions W} `{JsonDecoder}.

(** *** The loop over the Tool Call Requests *)

Lemma resolve_tool_calls_cons (tool_call : ToolCall) (rest : list ToolCall)
    (msgs : list PyVal) (w : W) :
  resolve_tool_calls (tool_call :: rest) msgs w
  = match json_loads (fn_arguments (tc_function tool_call)) with
    | None => (Raise (JSONDecodeError (fn_arguments (tc_function tool_call))), w, [])
    | Some arguments =>
        let name := fn_name (tc_function tool_call) in
        match call_tool name arguments w with
        | (Raise e, w1) => (Raise e, w1, [EvCallTool name arguments (Raise e)])
        | (Return result, w1) =>
            match tool_content_of result with
            | Raise e => (Raise e, w1, [EvCallTool name arguments (Return result)])
            | Return tool_content =>
                match resolve_tool_calls rest
                        (msgs ++ [tool_message (tc_id tool_call) tool_content]) w1 with
                | (r, w2, evs) =>
                    (r, w2, EvCallTool name arguments (Return result) :: evs)
                end
            end
        end
    end.
Proof.
  cbn [resolve_tool_calls]. unfold bind, json_loads_str, session_call_tool, lift.
  destruct (json_loads _) as [arguments|]; [|reflexivity].
  cbn [ret].
  destruct (call_tool _ arguments w) as [[result|e] w1]; [|reflexivity].
  destruct (tool_content_of result) as [tool_content|e]; [|reflexivity].
  destruct (resolve_tool_calls rest _ w1) as [[r w2] evs]. reflexivity.
Qed.

(** The loop makes no model call. *)
Lemma resolve_tool_calls_no_chat (tcs : list ToolCall) (msgs : list PyVal) (w : W) :
  chat_calls (transcript (resolve_tool_calls tcs msgs w)) = [].
Proof.
  revert msgs w. induction tcs as [|tc tcs IH]; intros msgs w; [reflexivity |].
  rewrite resolve_tool_calls_cons.
  destruct (json_loads _) as [arguments|]; [|reflexivity].
  cbv zeta.
  destruct (call_tool _ arguments w) as [[result|e] w1]; [|reflexivity].
  destruct (tool_content_of result) as [tool_content|e]; [|reflexivity].
  specialize (IH (msgs ++ [tool_message (tc_id tc) tool_content]) w1).
  destruct (resolve_tool_calls tcs _ w1) as [[r w2] evs]. exact IH.
Qed.

(** When the loop completes, it has appended one message for each
    request, in order, and invoked one tool for each. *)
Lemma resolve_tool_calls_Return (tcs : list ToolCall) (msgs msgs' : list PyVal)
    (w w' : W) (evs : list Event) :
  resolve_tool_calls tcs msgs w = (Return msgs', w', evs) ->
  exists new, msgs' = msgs ++ new
              /\ Forall3 resolved tcs (tool_invocations evs) new.
Proof.
  revert msgs msgs' w w' evs.
  induction tcs as [|tc tcs IH]; intros msgs msgs' w w' evs.
  - intros [= <- <- <-]. exists []. rewrite app_nil_r. split; [reflexivity | constructor].
  - rewrite resolve_tool_calls_cons.
    destruct (json_loads _) as [arguments|] eqn:Hargs; [|discriminate].
    cbv zeta.
    destruct (call_tool _ arguments w) as [[result|e] w1]; [|discriminate].
    destruct (tool_content_of result) as [tool_content|e] eqn:Hcontent; [|discriminate].
    destruct (resolve_tool_calls tcs _ w1) as [[r w2] evs'] eqn:Hrest.
    intros [= -> -> <-].
    destruct (IH _ _ _ _ _ Hrest) as (new & -> & Hall).
    exists (tool_message (tc_id tc) tool_content :: new). split.
    + now rewrite <- app_assoc.
    + cbn [tool_invocations]. constructor; [|exact Hall].
      exists arguments, result, tool_content. auto.
Qed.

(** *** [process_query], path by path *)

Lemma process_query_unfold (self : MCPAzureOpenAIClient) (query : string) (w : W) :
  process_query self query w
  = match list_tools w with
    | (Raise e, w1) => (Raise e, w1, [EvListTools (Raise e)])
    | (Return ts, w1) =>
        let tools := List.map tool_schema ts in
        let req1 := first_request self query tools in
        match create req1 w1 with
        | (Raise e, w2) =>
            (Raise e, w2,
             [EvListTools (Return ts); EvChatCreate req1 (Raise e)]
             ++ api_error_report self e)
        | (Return response, w2) =>
            let head := [EvListTools (Return ts);
                         EvChatCreate req1 (Return response)] in
            match choices response with
            | [] => (Raise (IndexError "list index out of range"), w2, head)
            | c :: _ =>
                let am := message c in
                if tool_calls_truthy (msg_tool_calls am) then
                  match resolve_tool_calls (requests am)
                          [user_message query; assistant_msg_of am] w2 with
                  | (Raise e, w3, evs) => (Raise e, w3, head ++ evs)
                  | (Return msgs, w3, evs) =>
                      let req2 := second_request self msgs tools in
                      match create req2 w3 with
                      | (Raise e, w4) =>
                          (Raise e, w4, head ++ evs ++ [EvChatCreate req2 (Raise e)])
                      | (Return final_response, w4) =>
                          (answer_of final_response, w4,
                           head ++ evs ++ [EvChatCreate req2 (Return final_response)])
                      end
                  end
                else (Return (msg_content am), w2, head)
            end
        end
    end.
Proof.
  unfold process_query, get_mcp_tools, bind, try_except, session_list_tools,
    chat_completions_create, lift, ret, report_api_error, api_error_report, raise, print.
  destruct (list_tools w) as [[ts|e] w1]; [|reflexivity].
  cbv zeta.
  destruct (create (first_request self query _) w1) as [[response|e] w2].
  - destruct (choices response) as [|c cs]; [reflexivity |].
    cbn [index0 app].
    destruct (tool_calls_truthy (msg_tool_calls (message c))); [|reflexivity].
    destruct (resolve_tool_calls _ _ w2) as [[[msgs|e] w3] evs]; [|reflexivity].
    destruct (create (second_request self msgs _) w3) as [[final_response|e] w4].
    + unfold answer_of. destruct (choices final_response); reflexivity.
    + reflexivity.
  - destruct (is_Exception e); reflexivity.
Qed.


(** The seven ways through [process_query]: the second call returns
    or raises, the loop raises, there is no tool call, there is no
    choice, the first call raises, the tool list cannot be fetched. *)
Ltac query_paths self query w :=
  rewrite (process_query_unfold self query w);
  let ts := fresh "ts" in
  let w1 := fresh "w1" in
  let e := fresh "e" in
  destruct (list_tools w) as [[ts|e] w1];
  [ cbv zeta;
    let response := fresh "response" in
    let w2 := fresh "w2" in
    destruct (create (first_request self query (List.map tool_schema ts)) w1)
      as [[response|e] w2];
    [ let c := fresh "c" in
      let cs := fresh "cs" in
      destruct (choices response) as [|c cs] eqn:Hchoices;
      [ | destruct (tool_calls_truthy (msg_tool_calls (message c))) eqn:Htruthy;
          [ let msgs := fresh "msgs" in
            let w3 := fresh "w3" in
            let evs := fresh "evs" in
            destruct (resolve_tool_calls (requests (message c))
                        [user_message query; assistant_msg_of (message c)] w2)
              as [[[msgs|e] w3] evs] eqn:Hloop;
            [ let final_response := fresh "final_response" in
              let w4 := fresh "w4" in
              destruct (create (second_request self msgs (List.map tool_schema ts)) w3)
                as [[final_response|e] w4] | ]
          | ] ]
    | ]
  | ].

Lemma loop_no_chat (tcs : list ToolCall) (msgs : list PyVal) (w w' : W)
    (r : Outcome (list PyVal)) (evs : list Event) :
  resolve_tool_calls tcs msgs w = (r, w', evs) -> chat_calls evs = [].
Proof.
  intros Hrun. pose proof (resolve_tool_calls_no_chat tcs msgs w) as Hno.
  now rewrite Hrun in Hno.
Qed.

Lemma first_message_Return (response : ChatCompletion) (c : Choice) (cs : list Choice) :
  choices response = c :: cs -> first_message (Return response) = Some (message c).
Proof. unfold first_message. now intros ->. Qed.

(** A transcript with two model calls: what the two requests are. *)
Lemma two_chat_calls (self : MCPAzureOpenAIClient) (query : string) (w : W)
    (call1 call2 : ChatRequest * Outcome ChatCompletion)
    (rest : list (ChatRequest * Outcome ChatCompletion)) :
  chat_calls (transcript (process_query self query w)) = call1 :: call2 :: rest ->
  exists tools am new,
    rest = []
    /\ first_message (snd call1) = Some am
    /\ tool_calls_truthy (msg_tool_calls am) = true
    /\ fst call1 = first_request self query tools
    /\ fst call2
       = second_request self ([user_message query; assistant_msg_of am] ++ new) tools
    /\ Forall3 resolved (requests am)
         (tool_invocations (transcript (process_query self query w))) new.
Proof.
  query_paths self query w; cbn [transcript snd];
    rewrite ?chat_calls_app, ?tool_invocations_app,
      ?chat_calls_api_error_report, ?tool_invocations_api_error_report;
    try rewrite (loop_no_chat _ _ _ _ _ _ Hloop);
    cbn [chat_calls tool_invocations app]; try discriminate.
  - intros [= <- <- <-].
    destruct (resolve_tool_calls_Return _ _ _ _ _ _ Hloop) as (new & -> & Hall).
    exists (List.map tool_schema ts), (message c), new.
    rewrite app_nil_r. repeat split; try assumption.
    now apply first_message_Return with cs.
  - intros [= <- <- <-].
    destruct (resolve_tool_calls_Return _ _ _ _ _ _ Hloop) as (new & -> & Hall).
    exists (List.map tool_schema ts), (message c), new.
    rewrite app_nil_r. repeat split; try assumption.
    now apply first_message_Return with cs.
Qed.


(** A transcript with a model call: what the first request is, and
    what happens when its response carries no Tool Call Request. *)
Lemma first_chat_call (self : MCPAzureOpenAIClient) (query : string) (w : W)
    (call1 : ChatRequest * Outcome ChatCompletion)
    (rest : list (ChatRequest * Outcome ChatCompletion)) :
  chat_calls (transcript (process_query self query w)) = call1 :: rest ->
  tool_choice (fst call1) = "auto"
  /\ forall am, first_message (snd call1) = Some am ->
       tool_calls_truthy (msg_tool_calls am) = false ->
       rest = []
       /\ tool_invocations (transcript (process_query self query w)) = []
       /\ outcome (process_query self query w) = Return (msg_content am).
Proof.
  query_paths self query w; cbn [transcript outcome fst snd];
    rewrite ?chat_calls_app, ?tool_invocations_app,
      ?chat_calls_api_error_report, ?tool_invocations_api_error_report;
    try rewrite (loop_no_chat _ _ _ _ _ _ Hloop);
    cbn [chat_calls tool_invocations app]; try discriminate;
    intros [= <- <-]; (split; [reflexivity |]); intros am; cbn [snd];
    rewrite ?(first_message_Return _ _ _ Hchoices); cbn [first_message];
    rewrite ?Hchoices; try discriminate;
    intros [= <-]; rewrite Htruthy; try discriminate.
  intros _. auto.
Qed.

(** The number of model calls of a query, by outcome. *)
Lemma chat_calls_count (self : MCPAzureOpenAIClient) (query : string) (w : W) :
  length (chat_calls (transcript (process_query self query w))) <= 2
  /\ forall call am answer,
       chat_calls (transcript (process_query self query w)) !! 0 = Some call ->
       first_message (snd call) = Some am ->
       tool_calls_truthy (msg_tool_calls am) = true ->
       outcome (process_query self query w) = Return answer ->
       length (chat_calls (transcript (process_query self query w))) = 2.
Proof.
  query_paths self query w; cbn [transcript outcome fst snd];
    rewrite ?chat_calls_app, ?chat_calls_api_error_report;
    try rewrite (loop_no_chat _ _ _ _ _ _ Hloop);
    cbn [chat_calls app length]; (split; [lia |]);
    intros call am answer; cbn [lookup list_lookup]; try discriminate;
    intros [= <-]; cbn [snd];
    rewrite ?(first_message_Return _ _ _ Hchoices); cbn [first_message];
    rewrite ?Hchoices; try discriminate;
    intros [= <-]; rewrite ?Htruthy; try discriminate; try reflexivity.
Qed.

(** ** The claims on the protocol *)

(** C1.  When the first model response carries N >= 1 Tool Call
    Requests, the message list of the second model call has length
    2 + N: the user message (role "user", the query as content), the
    normalized assistant message (role "assistant", the model's text or
    the empty string as content), then one message of role "tool" for
    each request, in the order of the requests, each with the id of its
    request as [tool_call_id] and a [str] as content. *)
Theorem second_call_messages (self : MCPAzureOpenAIClient) (query : string) (w : W)
    (call1 call2 : ChatRequest * Outcome ChatCompletion)
    (rest : list (ChatRequest * Outcome ChatCompletion))
    (am : ChatCompletionMessage) (tcs : list ToolCall) :
  chat_calls (transcript (process_query self query w)) = call1 :: call2 :: rest ->
  first_message (snd call1) = Some am ->
  msg_tool_calls am = Some tcs ->
  tcs <> [] ->
  length (messages (fst call2)) = 2 + length tcs
  /\ messages (fst call2) !! 0
     = Some (PDict [("role", PStr "user"); ("content", PStr query)])
  /\ (exists a,
        messages (fst call2) !! 1 = Some a
        /\ a = assistant_msg_of am
        /\ dict_get "role" a = Some (PStr "assistant")
        /\ dict_get "content" a = Some (PStr (default EmptyString (msg_content am))))
  /\ forall i tc, tcs !! i = Some tc ->
       exists content : string,
         messages (fst call2) !! (2 + i)
         = Some (PDict [("role", PStr "tool");
                        ("tool_call_id", PStr (tc_id tc));
                        ("content", PStr content)]).
Proof.
  intros Hcalls Ham Htcs _.
  destruct (two_chat_calls _ _ _ _ _ _ Hcalls)
    as (tools & am' & new & _ & Ham' & Htruthy & _ & -> & Hall).
  rewrite Ham in Ham'. injection Ham' as <-.
  assert (Hreq : requests am = tcs) by (unfold requests; now rewrite Htcs).
  rewrite Hreq in Hall.
  cbn [messages second_request app]. split; [|split; [|split]].
  - cbn [length]. now rewrite (Forall3_length_lr _ _ _ _ Hall).
  - reflexivity.
  - exists (assistant_msg_of am). split; [reflexivity |]. split; [reflexivity |].
    now rewrite (assistant_msg_with_calls am Htruthy).
  - intros i tc Htc. cbn [lookup list_lookup Nat.add].
    change (new !! i) with (lookup i new).
    destruct (Forall3_lookup_l _ _ _ _ _ _ Hall Htc)
      as (inv & msg & _ & Hmsg & (arguments & result & content & _ & _ & _ & ->)).
    exists content. exact Hmsg.
Qed.


(** C2, as the code has it.  The content of a tool-role message is
    computed from the content of the tool's result: the empty string
    when that content is false in a condition ([None], an empty list,
    an empty string); the string form of the first element's [text]
    when it is a non-empty list (and the query fails when that element
    has no [text]); the string form of the whole content otherwise.
    Every tool invocation of a query that reaches its second model
    call returned a result, and the message at its place in that
    call carries the content so computed. *)
Theorem tool_result_coercion (self : MCPAzureOpenAIClient) (query : string) (w : W) :
  (forall result : CallToolResult,
      (py_truthy (result_content result) = false ->
       tool_content_of result = Return EmptyString)
      /\ (forall first others,
            result_content result = PList (first :: others) ->
            (forall text, getattr first "text" = Return text ->
                          tool_content_of result = Return (py_str text))
            /\ (forall e, getattr first "text" = Raise e ->
                          tool_content_of result = Raise e))
      /\ (py_truthy (result_content result) = true ->
          (forall items, result_content result <> PList items) ->
          tool_content_of result = Return (py_str (result_content result))))
  /\ (forall call1 call2 rest i inv,
        chat_calls (transcript (process_query self query w)) = call1 :: call2 :: rest ->
        tool_invocations (transcript (process_query self query w)) !! i = Some inv ->
        exists am tc result content,
          first_message (snd call1) = Some am
          /\ requests am !! i = Some tc
          /\ snd inv = Return result
          /\ tool_content_of result = Return content
          /\ messages (fst call2) !! (2 + i) = Some (tool_message (tc_id tc) content)).
Proof.
  split.
  - intros result. split; [apply tool_content_falsy |]. split.
    + intros first others Hlist. rewrite (tool_content_list _ _ _ Hlist).
      split; now intros ? ->.
    + apply tool_content_other.
  - intros call1 call2 rest i inv Hcalls Hinv.
    destruct (two_chat_calls _ _ _ _ _ _ Hcalls)
      as (tools & am & new & _ & Ham & _ & _ & -> & Hall).
    destruct (Forall3_lookup_m _ _ _ _ _ _ Hall Hinv)
      as (tc & msg & Htc & Hmsg
          & (arguments & result & content & _ & -> & Hcontent & ->)).
    exists am, tc, result, content. repeat split; try assumption.
Qed.

(** C3.  A query makes at most two model calls; the first lets the
    model choose its tools, the second, whatever the number of tool
    calls, forbids them; and when the first response carries Tool
    Call Requests and the query is answered, the second call was
    made. *)
Theorem second_call_forbids_tools (self : MCPAzureOpenAIClient) (query : string) (w : W) :
  length (chat_calls (transcript (process_query self query w))) <= 2
  /\ (forall call,
        chat_calls (transcript (process_query self query w)) !! 0 = Some call ->
        tool_choice (fst call) = "auto")
  /\ (forall call,
        chat_calls (transcript (process_query self query w)) !! 1 = Some call ->
        tool_choice (fst call) = "none")
  /\ (forall call am answer,
        chat_calls (transcript (process_query self query w)) !! 0 = Some call ->
        first_message (snd call) = Some am ->
        requests am <> [] ->
        outcome (process_query self query w) = Return answer ->
        length (chat_calls (transcript (process_query self query w))) = 2).
Proof.
  destruct (chat_calls_count self query w) as [Hle Htwo].
  split; [exact Hle |]. split; [|split].
  - intros call Hcall.
    destruct (chat_calls (transcript (process_query self query w)))
      as [|call1 rest] eqn:Hcalls; [discriminate |].
    injection Hcall as <-.
    now destruct (first_chat_call _ _ _ _ _ Hcalls).
  - intros call Hcall.
    destruct (chat_calls (transcript (process_query self query w)))
      as [|call1 [|call2 rest]] eqn:Hcalls; try discriminate.
    injection Hcall as <-.
    destruct (two_chat_calls _ _ _ _ _ _ Hcalls)
      as (tools & am & new & _ & _ & _ & _ & -> & _).
    reflexivity.
  - intros call am answer Hcall Ham Hreq.
    apply (Htwo call am answer Hcall Ham).
    now apply tool_calls_truthy_requests.
Qed.

(** C4.  When the first model response carries no Tool Call Request,
    no tool is invoked, there is no second model call, and the answer
    is the content of the assistant message as the model gave it. *)
Theorem no_tool_calls_direct_answer (self : MCPAzureOpenAIClient) (query : string)
    (w : W) (call1 : ChatRequest * Outcome ChatCompletion)
    (rest : list (ChatRequest * Outcome ChatCompletion))
    (am : ChatCompletionMessage) :
  chat_calls (transcript (process_query self query w)) = call1 :: rest ->
  first_message (snd call1) = Some am ->
  requests am = [] ->
  tool_invocations (transcript (process_query self query w)) = []
  /\ rest = []
  /\ outcome (process_query self query w) = Return (msg_content am).
Proof.
  intros Hcalls Ham Hnone.
  destruct (first_chat_call _ _ _ _ _ Hcalls) as [_ Hdirect].
  destruct (Hdirect am Ham) as (-> & Hinv & Hout).
  - destruct (tool_calls_truthy (msg_tool_calls am)) eqn:Ht; [|reflexivity].
    now apply tool_calls_truthy_requests in Ht.
  - auto.
Qed.

(** C5.  When the first model response carries Tool Call Requests,
    the second message of the second call is the assistant message
    with the model's text as content, the empty string when the model
    gave none, and with one entry for each tool call of the response, in
    order, that has its id, its type, and the name and the arguments of
    its function, the arguments being the very string received. *)
Theorem assistant_message_replayed (self : MCPAzureOpenAIClient) (query : string)
    (w : W) (call1 call2 : ChatRequest * Outcome ChatCompletion)
    (rest : list (ChatRequest * Outcome ChatCompletion))
    (am : ChatCompletionMessage) (tcs : list ToolCall) :
  chat_calls (transcript (process_query self query w)) = call1 :: call2 :: rest ->
  first_message (snd call1) = Some am ->
  msg_tool_calls am = Some tcs ->
  exists a calls,
    messages (fst call2) !! 1 = Some a
    /\ dict_get "role" a = Some (PStr "assistant")
    /\ dict_get "content" a = Some (PStr (default EmptyString (msg_content am)))
    /\ dict_get "tool_calls" a = Some (PList calls)
    /\ length calls = length tcs
    /\ forall i tc, tcs !! i = Some tc ->
         exists d f,
           calls !! i = Some d
           /\ dict_get "id" d = Some (PStr (tc_id tc))
           /\ dict_get "type" d = Some (PStr (tc_type tc))
           /\ dict_get "function" d = Some f
           /\ dict_get "name" f = Some (PStr (fn_name (tc_function tc)))
           /\ dict_get "arguments" f = Some (PStr (fn_arguments (tc_function tc))).
Proof.
  intros Hcalls Ham Htcs.
  destruct (two_chat_calls _ _ _ _ _ _ Hcalls)
    as (tools & am' & new & _ & Ham' & Htruthy & _ & -> & _).
  rewrite Ham in Ham'. injection Ham' as <-.
  assert (Hreq : requests am = tcs) by (unfold requests; now rewrite Htcs).
  exists (assistant_msg_of am), (List.map tool_call_dict tcs).
  rewrite (assistant_msg_with_calls am Htruthy), Hreq.
  repeat split.
  - apply length_map.
  - intros i tc Htc.
    exists (tool_call_dict tc),
      (PDict [("name", PStr (fn_name (tc_function tc)));
              ("arguments", PStr (fn_arguments (tc_function tc)))]).
    repeat split.
    change (List.map tool_call_dict tcs) with (tool_call_dict <$> tcs).
    now rewrite list_lookup_fmap, Htc.
Qed.


(** *** Failures *)





(** *** The interactive loop *)




End Protocol.
End ClientFacts.

(* ===================================================================== *)
(** ** The claims at concrete runs                                        *)
(* ===================================================================== *)

Module Scenarios.
Import Py Client Demo Worlds ClientFacts.

Definition demo_query : string := "Add a note saying buy milk, then read my notes.".

(** The run with two tool calls: both are resolved, in order, and the
    second model call answers. *)
Example two_calls_answer :
  outcome (process_query demo_client demo_query w_two_calls)
  = Return (Some "Saved and listed.")
  /\ Demo.notes (final_world (process_query demo_client demo_query w_two_calls))
     = Some (String.append "buy milk" (String PyStr.LF EmptyString))
  /\ List.map (fun inv => fst (fst inv))
       (tool_invocations (transcript (process_query demo_client demo_query w_two_calls)))
     = ["add_note"; "read_notes"].
Proof. repeat split; vm_compute; reflexivity. Qed.

Lemma second_call_messages_witness :
  exists call1 call2 am,
    chat_calls (transcript (process_query demo_client demo_query w_two_calls))
    = [call1; call2]
    /\ first_message (snd call1) = Some am
    /\ msg_tool_calls am = Some two_calls
    /\ length (messages (fst call2)) = 2 + length two_calls
    /\ messages (fst call2) !! 0
       = Some (PDict [("role", PStr "user"); ("content", PStr demo_query)])
    /\ (exists a,
          messages (fst call2) !! 1 = Some a
          /\ a = assistant_msg_of am
          /\ dict_get "role" a = Some (PStr "assistant")
          /\ dict_get "content" a
             = Some (PStr (default EmptyString (msg_content am))))
    /\ forall i tc, two_calls !! i = Some tc ->
         exists content : string,
           messages (fst call2) !! (2 + i)
           = Some (PDict [("role", PStr "tool");
                          ("tool_call_id", PStr (tc_id tc));
                          ("content", PStr content)]).
Proof.
  eexists _, _, _.
  split; [reflexivity |]. split; [reflexivity |]. split; [reflexivity |].
  eapply (second_call_messages demo_client demo_query w_two_calls _ _ []);
    [reflexivity | reflexivity | reflexivity | discriminate].
Defined.

  (** C2 as stated fails: a result whose content is the empty list is
    not a non-empty list, its string form is "[]", and the content of
    the message is the empty string; likewise for [None]. *)
Lemma tool_result_coercion_counterexample :
  (tool_content_of {| result_content := PList []; isError := false |}
   = Return EmptyString
   /\ py_str (PList []) = "[]"
   /\ tool_content_of {| result_content := PList []; isError := false |}
      <> Return (py_str (PList [])))
  /\ (tool_content_of {| result_content := PNone; isError := false |}
      = Return EmptyString
      /\ py_str PNone = "None"
      /\ tool_content_of {| result_content := PNone; isError := false |}
         <> Return (py_str PNone)).
Proof.
  split; (split; [reflexivity | split; [reflexivity | discriminate]]).
Qed.

Lemma no_tool_calls_direct_answer_witness :
  exists call1 am,
    chat_calls (transcript (process_query demo_client "Hi" w_direct)) = [call1]
    /\ first_message (snd call1) = Some am
    /\ requests am = []
    /\ tool_invocations (transcript (process_query demo_client "Hi" w_direct)) = []
    /\ @nil (ChatRequest * Outcome ChatCompletion) = []
    /\ outcome (process_query demo_client "Hi" w_direct) = Return (msg_content am).
Proof.
  eexists _, _.
  split; [reflexivity |]. split; [reflexivity |]. split; [reflexivity |].
  eapply (no_tool_calls_direct_answer demo_client "Hi" w_direct _ []);
    reflexivity.
Defined.

Lemma assistant_message_replayed_witness :
  exists call1 call2 am,
    chat_calls (transcript (process_query demo_client demo_query w_two_calls))
    = [call1; call2]
    /\ first_message (snd call1) = Some am
    /\ msg_tool_calls am = Some two_calls
    /\ exists a calls,
         messages (fst call2) !! 1 = Some a
         /\ dict_get "role" a = Some (PStr "assistant")
         /\ dict_get "content" a = Some (PStr (default EmptyString (msg_content am)))
         /\ dict_get "tool_calls" a = Some (PList calls)
         /\ length calls = length two_calls
         /\ forall i tc, two_calls !! i = Some tc ->
              exists d f,
                calls !! i = Some d
                /\ dict_get "id" d = Some (PStr (tc_id tc))
                /\ dict_get "type" d = Some (PStr (tc_type tc))
                /\ dict_get "function" d = Some f
                /\ dict_get "name" f = Some (PStr (fn_name (tc_function tc)))
                /\ dict_get "arguments" f
                   = Some (PStr (fn_arguments (tc_function tc))).
Proof.
  eexists _, _, _.
  split; [reflexivity |]. split; [reflexivity |]. split; [reflexivity |].
  eapply (assistant_message_replayed demo_client demo_query w_two_calls _ _ []);
    reflexivity.
Defined.

(** The model asks for a tool the host does not have: the host answers
    with an error result, the client passes its text on, and the model
    answers; nothing is raised. *)
Example unknown_tool_is_answered :
  outcome (process_query demo_client "hi" w_unknown_tool) = Return (Some "Hello!")
  /\ List.map snd (tool_invocations (transcript (process_query demo_client "hi" w_unknown_tool)))
     = [Return (error_result "Unknown tool: no_such_tool")]
  /\ length (chat_calls (transcript (process_query demo_client "hi" w_unknown_tool))) = 2.
Proof. repeat split; vm_compute; reflexivity. Qed.

Lemma not_exit_word (s : string) :
  s <> "exit" -> s <> "quit" -> s <> "bye" -> s ∉ exit_words.
Proof.
  intros H1 H2 H3 Hin.
  repeat (apply elem_of_cons in Hin as [Heq | Hin]; [congruence |]).
  now apply elem_of_nil in Hin.
Defined.






(** With the three settings in place the client is built and the
    session runs. *)
Example configured_session :
  outcome (interactive_azure_openai demo_environ [Line "Hi"; Line "quit"] w_direct)
  = Return Exited.
Proof. vm_compute. reflexivity. Qed.

End Scenarios.

(* ===================================================================== *)
(** ** main.py: more about the note tools                                 *)
(* ===================================================================== *)

Module NotesMore.
Import PyStr PyStrFacts Notes NotesFacts Observations.

Lemma lstrip_idem (s : string) : lstrip (lstrip s) = lstrip s.
Proof.
  induction s as [|c s IH]; [reflexivity |]. cbn [lstrip].
  destruct (is_space c) eqn:Hc; [exact IH |]. cbn [lstrip]. now rewrite Hc.
Qed.

Lemma rstrip_cons (c : ascii) (s : string) :
  rstrip (String c s)
  = match rstrip s with
    | EmptyString => if is_space c then EmptyString else String c EmptyString
    | r => String c r
    end.
Proof. reflexivity. Qed.

Lemma rstrip_idem (s : string) : rstrip (rstrip s) = rstrip s.
Proof.
  induction s as [|c s IH]; [reflexivity |]. rewrite rstrip_cons.
  destruct (rstrip s) as [|d r] eqn:Hr.
  - destruct (is_space c) eqn:Hc; [reflexivity |].
    rewrite rstrip_cons. cbn [rstrip]. now rewrite Hc.
  - rewrite rstrip_cons, IH. reflexivity.
Qed.

(** Stripping the two ends in either order gives the same text. *)
Lemma lstrip_rstrip_comm (s : string) : lstrip (rstrip s) = rstrip (lstrip s).
Proof.
  induction s as [|c s IH]; [reflexivity |].
  cbn [lstrip]. rewrite rstrip_cons. destruct (is_space c) eqn:Hc.
  - rewrite <- IH. destruct (rstrip s) as [|d r]; [reflexivity |].
    cbn [lstrip]. now rewrite Hc.
  - rewrite rstrip_cons.
    destruct (rstrip s) as [|d r]; rewrite ?Hc; cbn [lstrip]; now rewrite Hc.
Qed.

Lemma strip_idem (s : string) : strip (strip s) = strip s.
Proof.
  unfold strip.
  now rewrite (lstrip_rstrip_comm (lstrip (rstrip s))), lstrip_idem,
    <- lstrip_rstrip_comm, rstrip_idem.
Qed.

Lemma truthy_strip (s : string) : truthy (strip s) = negb (blank s).
Proof.
  destruct (blank s) eqn:Hb.
  - apply strip_blank in Hb. now rewrite Hb.
  - destruct (strip s) eqn:Hs; [|reflexivity].
    apply strip_blank in Hs. congruence.
Qed.

Lemma ends_with_snoc (c : ascii) (s : string) :
  ends_with c (s +:+ String c EmptyString) = true.
Proof.
  induction s as [|d s IH]; cbn [String.append].
  - cbn [ends_with]. apply Ascii.eqb_refl.
  - rewrite ends_with_cons; [exact IH |]. now destruct s.
Qed.

Lemma universal_newlines_nil (s : string) :
  universal_newlines s = EmptyString -> s = EmptyString.
Proof.
  destruct s as [|c s]; [reflexivity |]. rewrite universal_newlines_cons.
  destruct (Ascii.eqb c CR); [|discriminate].
  destruct s as [|d s]; [discriminate |]. now destruct (Ascii.eqb d LF).
Qed.

(** Every line of a blank text is blank. *)
Lemma split_lines_blank (s : string) :
  blank s = true -> Forall (fun l => blank l = true) (split_lines s).
Proof.
  induction s as [|c s IH]; [constructor |].
  rewrite blank_cons. intros [Hc Hs]%andb_true_iff. specialize (IH Hs).
  cbn [split_lines]. destruct (Ascii.eqb c LF).
  - constructor; [|exact IH]. cbn [blank]. now rewrite Hc.
  - destruct (split_lines s) as [|l ls].
    + repeat constructor. cbn [blank]. now rewrite Hc.
    + inversion IH as [|? ? Hl Hls]; subst. constructor; [|exact Hls].
      rewrite blank_cons, Hc. exact Hl.
Qed.

Lemma stripped_text_blank (fs : FileState) :
  strip (read_text (ensure_file fs)) = EmptyString <-> absent_or_blank fs = true.
Proof.
  rewrite strip_blank. destruct fs as [raw|]; cbn; [|easy].
  now rewrite blank_universal_newlines.
Qed.

Lemma read_text_ensure_file (fs : FileState) :
  read_text (ensure_file fs) = read_text fs.
Proof. now destruct fs. Qed.

Lemma add_note_stored (m : string) (fs : FileState) :
  snd (add_note m fs) = Some (stored fs +:+ note_line m).
Proof. now destruct fs. Qed.

Lemma add_note_terminates (m : string) (fs : FileState) :
  well_terminated (snd (add_note m fs)) = true.
Proof.
  rewrite add_note_stored. cbn [well_terminated]. unfold note_line.
  rewrite <- append_assoc, ends_with_snoc. apply orb_true_r.
Qed.

Lemma single_line_inv (m : string) :
  single_line m = true -> contains LF m = false /\ contains CR m = false.
Proof.
  unfold single_line. intros [H1 H2]%andb_true_iff.
  now apply negb_true_iff in H1, H2.
Qed.

Lemma readlines_add_note (m : string) (fs : FileState) :
  single_line m = true ->
  well_terminated fs = true ->
  readlines (snd (add_note m fs)) = readlines fs ++ [note_line m].
Proof.
  intros [HLF HCR]%single_line_inv Hfs.
  rewrite add_note_stored. unfold readlines, note_line. cbn [read_text].
  apply well_terminated_stored in Hfs.
  rewrite read_after_append by assumption.
  assert (Hread : read_text fs = universal_newlines (stored fs)) by now destruct fs.
  rewrite Hread. destruct Hfs as [-> | Hend].
  - cbn [universal_newlines String.append split_lines app].
    now apply split_lines_one.
  - rewrite split_lines_app by now apply universal_newlines_ends_LF.
    now rewrite split_lines_one.
Qed.

(** X1.  an invariant of the file.  After one or more notes are added,
    whatever the file held and whatever the notes are, the file exists and
    its text ends with a line feed: the next note starts a new line. *)
Theorem notes_file_stays_terminated (ms : list string) (fs : FileState) :
  ms <> [] ->
  exists text,
    add_notes ms fs = Some text /\ ends_with LF text = true.
Proof.
  destruct ms as [|m ms _] using rev_ind; [congruence |]. intros _.
  unfold add_notes. rewrite fold_left_app. cbn [fold_left].
  rewrite add_note_stored. eexists. split; [reflexivity |].
  unfold note_line. rewrite <- append_assoc. apply ends_with_snoc.
Qed.

Lemma notes_file_stays_terminated_witness :
  exists text,
    add_notes ["first"; ""] (Some "no line end") = Some text
    /\ ends_with LF text = true.
Proof.
  apply (notes_file_stays_terminated ["first"; ""] (Some "no line end")).
  discriminate.
Defined.

(** X2.  notes added one after the other are lines read back one for one.
    From a file that is absent, empty or ends with a line feed, after
    adding messages that have no line feed and no carriage return,
    [readlines] gives the lines there were, then one line for each
    message, in order; and [get_latest_note] returns the last message,
    stripped. *)
Theorem notes_read_back_in_order (ms : list string) (fs : FileState) :
  Forall (fun m => single_line m = true) ms ->
  well_terminated fs = true ->
  readlines (add_notes ms fs) = readlines fs ++ List.map note_line ms
  /\ forall m, last ms = Some m ->
       fst (get_latest_note (add_notes ms fs)) = strip m.
Proof.
  intros Hms Hfs.
  assert (Hlines : readlines (add_notes ms fs) = readlines fs ++ List.map note_line ms).
  { revert fs Hfs. induction Hms as [|m ms Hm Hms IH]; intros fs Hfs.
    - cbn. now rewrite app_nil_r.
    - cbn [add_notes fold_left List.map].
      change (fold_left _ ms ?x) with (add_notes ms x).
      rewrite IH by apply add_note_terminates.
      rewrite readlines_add_note by assumption.
      now rewrite <- app_assoc. }
  split; [exact Hlines |].
  intros m Hlast. unfold get_latest_note. cbn [fst].
  assert (Hens : readlines (ensure_file (add_notes ms fs)) = readlines (add_notes ms fs)).
  { unfold readlines. now rewrite read_text_ensure_file. }
  rewrite Hens, Hlines.
  destruct ms as [|m0 ms0] using rev_ind; [discriminate |].
  rewrite last_snoc in Hlast. injection Hlast as ->.
  rewrite map_app. cbn [List.map]. rewrite app_assoc, last_snoc.
  unfold note_line. now apply strip_snoc_space.
Qed.

Lemma notes_read_back_in_order_witness :
  readlines (add_notes ["buy milk"; "call Ann"] None)
  = readlines None ++ List.map note_line ["buy milk"; "call Ann"]
  /\ forall m, last ["buy milk"; "call Ann"] = Some m ->
       fst (get_latest_note (add_notes ["buy milk"; "call Ann"] None)) = strip m.
Proof.
  apply (notes_read_back_in_order ["buy milk"; "call Ann"] None).
  - repeat constructor.
  - reflexivity.
Defined.

(** X3.  the two readers differ on a file of whitespace.  When the file is
    absent or empty both return "No notes yet."; when it is not empty
    and holds only whitespace, [read_notes] still returns "No notes yet."
    and [get_latest_note] returns the empty string. *)
Theorem blank_file_latest_is_empty (fs : FileState) :
  absent_or_blank fs = true ->
  fst (read_notes fs) = no_notes_yet
  /\ (stored fs = EmptyString -> fst (get_latest_note fs) = no_notes_yet)
  /\ (stored fs <> EmptyString -> fst (get_latest_note fs) = EmptyString).
Proof.
  intros Hblank. split; [|split].
  - unfold read_notes. cbn [fst].
    apply stripped_text_blank in Hblank. now rewrite Hblank.
  - intros Hnil. destruct fs as [raw|]; cbn in Hnil; [subst raw |]; reflexivity.
  - intros Hne. destruct fs as [raw|]; [|now destruct Hne].
    cbn [stored default absent_or_blank] in *.
    unfold get_latest_note, readlines. cbn [fst ensure_file read_text].
    pose proof (split_lines_blank (universal_newlines raw)) as Hall.
    rewrite blank_universal_newlines in Hall. specialize (Hall Hblank).
    destruct (last (split_lines (universal_newlines raw))) as [l|] eqn:Hlast.
    + apply strip_blank.
      apply last_Some in Hlast as [ls Hls]. rewrite Hls in Hall.
      apply Forall_app in Hall as [_ Hl]. now inversion Hl.
    + apply last_None in Hlast. apply split_lines_nil in Hlast.
      apply universal_newlines_nil in Hlast. contradiction.
Qed.

Lemma blank_file_latest_is_empty_witness :
  fst (read_notes (Some "  ")) = no_notes_yet
  /\ (stored (Some "  ") = EmptyString -> fst (get_latest_note (Some "  ")) = no_notes_yet)
  /\ (stored (Some "  ") <> EmptyString -> fst (get_latest_note (Some "  ")) = EmptyString).
Proof. apply (blank_file_latest_is_empty (Some "  ")). reflexivity. Defined.

(** X4.  [note_summary_prompt] returns "There are no notes yet." exactly
    when the file is absent, empty or all whitespace; otherwise it returns
    "Summarize the current notes: " followed by what [read_notes]
    returns. *)
Theorem note_summary_prompt_cases (fs : FileState) :
  (fst (note_summary_prompt fs) = "There are no notes yet."
   <-> absent_or_blank fs = true)
  /\ (absent_or_blank fs = false ->
      fst (note_summary_prompt fs)
      = "Summarize the current notes: " +:+ fst (read_notes fs)).
Proof.
  unfold note_summary_prompt, read_notes. cbn [fst].
  pose proof (stripped_text_blank fs) as Hblank.
  destruct (truthy (strip (read_text (ensure_file fs)))) eqn:Ht.
  - assert (Hnb : absent_or_blank fs = false).
    { destruct (absent_or_blank fs); [|reflexivity].
      destruct Hblank as [_ Hb]. rewrite Hb in Ht by reflexivity. discriminate. }
    rewrite Hnb. split; [split; discriminate | reflexivity].
  - apply truthy_false in Ht. apply Hblank in Ht as Hb. rewrite Hb.
    split; [split; reflexivity | discriminate].
Qed.

(** X5.  what the readers return has no whitespace at either end:
    stripping it again changes nothing. *)
Theorem notes_returned_stripped (fs : FileState) :
  strip (fst (read_notes fs)) = fst (read_notes fs)
  /\ strip (fst (get_latest_note fs)) = fst (get_latest_note fs).
Proof.
  unfold read_notes, get_latest_note. cbn [fst]. split.
  - destruct (truthy _); [apply strip_idem | reflexivity].
  - destruct (last _); [apply strip_idem | reflexivity].
Qed.

(** X6.  the first note.  On a file that is absent or empty, after
    [add_note m] with no carriage return in [m], [read_notes] returns [m]
    stripped, or "No notes yet." when [m] is all whitespace. *)
Theorem first_note_read_back (m : string) (fs : FileState) :
  stored fs = EmptyString ->
  contains CR m = false ->
  fst (read_notes (snd (add_note m fs)))
  = if blank m then no_notes_yet else strip m.
Proof.
  intros Hfresh HCR. rewrite add_note_stored, Hfresh.
  unfold read_notes, note_line. cbn [fst ensure_file read_text String.append].
  rewrite universal_newlines_no_CR
    by (rewrite contains_snoc, HCR; reflexivity).
  rewrite strip_snoc_space by reflexivity.
  rewrite truthy_strip. now destruct (blank m).
Qed.

Lemma first_note_read_back_witness :
  fst (read_notes (snd (add_note "  buy milk " None)))
  = if blank "  buy milk " then no_notes_yet else strip "  buy milk ".
Proof. apply (first_note_read_back "  buy milk " None); reflexivity. Defined.

End NotesMore.

(* ===================================================================== *)
(** ** client-stdio.py: more about a query, the loop and the session      *)
(* ===================================================================== *)

Module ClientMore.
Import Py Client ClientFacts Observations.
Local Open Scope py_scope.

Lemma list_tools_calls_app (a b : list Event) :
  list_tools_calls (a ++ b) = list_tools_calls a ++ list_tools_calls b.
Proof.
  induction a as [|ev a IH]; [reflexivity |].
  destruct ev; cbn [app list_tools_calls]; now rewrite IH.
Qed.

Lemma close_calls_app (a b : list Event) :
  close_calls (a ++ b) = close_calls a ++ close_calls b.
Proof.
  induction a as [|ev a IH]; [reflexivity |].
  destruct ev; cbn [app close_calls]; now rewrite IH.
Qed.

Lemma printed_app (a b : list Event) :
  printed (a ++ b) = printed a ++ printed b.
Proof.
  induction a as [|ev a IH]; [reflexivity |].
  destruct ev; cbn [app printed]; now rewrite IH.
Qed.

Lemma list_tools_calls_api_error_report (self : MCPAzureOpenAIClient) (e : PyExc) :
  list_tools_calls (api_error_report self e) = [].
Proof. unfold api_error_report. now destruct (is_Exception e). Qed.

Section Query.
Context {W : Type} `{ClientSession W} `{ChatCompletions W} `{JsonDecoder}.

(** [process_query] takes one of its paths. *)
Lemma process_query_path (self : MCPAzureOpenAIClient) (query : string) (w : W) :
  query_path self query w (process_query self query w).
Proof.
  rewrite process_query_unfold.
  destruct (list_tools w) as [[ts|e] w1] eqn:Htools;
    [|now apply path_tools_unavailable].
  cbv zeta.
  destruct (create (first_request self query (List.map tool_schema ts)) w1)
    as [[response|e] w2] eqn:Hfirst;
    [|eapply path_first_call_raises; eassumption].
  destruct (choices response) as [|c cs] eqn:Hchoices;
    [eapply path_no_choice; eassumption |].
  destruct (tool_calls_truthy (msg_tool_calls (message c))) eqn:Htruthy;
    [|eapply path_direct_answer; eassumption].
  destruct (resolve_tool_calls (requests (message c))
              [user_message query; assistant_msg_of (message c)] w2)
    as [[[msgs|e] w3] evs] eqn:Hloop;
    [|eapply path_loop_raises; eassumption].
  destruct (create (second_request self msgs (List.map tool_schema ts)) w3)
    as [[final_response|e] w4] eqn:Hsecond.
  - apply (path_second_call self query w ts w1 response w2 c cs msgs w3 evs
             (Return final_response) w4); assumption.
  - apply (path_second_call self query w ts w1 response w2 c cs msgs w3 evs
             (Raise e) w4); assumption.
Qed.

(** The loop over the tool calls logs tool invocations and nothing
    else. *)
Lemma loop_logs_invocations_only (tcs : list ToolCall) :
  forall (msgs : list PyVal) (w : W),
    list_tools_calls (transcript (resolve_tool_calls tcs msgs w)) = []
    /\ close_calls (transcript (resolve_tool_calls tcs msgs w)) = []
    /\ printed (transcript (resolve_tool_calls tcs msgs w)) = [].
Proof.
  induction tcs as [|tc tcs IH]; intros msgs w; [now cbn |].
  rewrite resolve_tool_calls_cons.
  destruct (json_loads _) as [arguments|]; [|now cbn].
  cbv zeta.
  destruct (call_tool _ arguments w) as [[result|e] w1]; [|now cbn].
  destruct (tool_content_of result) as [tool_content|e]; [|now cbn].
  specialize (IH (msgs ++ [tool_message (tc_id tc) tool_content]) w1).
  destruct (resolve_tool_calls tcs _ w1) as [[r w2] evs]. exact IH.
Qed.

Lemma loop_run_logs (tcs : list ToolCall) (msgs : list PyVal) (w w' : W)
    (r : Outcome (list PyVal)) (evs : list Event) :
  resolve_tool_calls tcs msgs w = (r, w', evs) ->
  chat_calls evs = [] /\ list_tools_calls evs = []
  /\ close_calls evs = [] /\ printed evs = [].
Proof.
  intros Hrun.
  pose proof (resolve_tool_calls_no_chat tcs msgs w) as Hchat.
  pose proof (loop_logs_invocations_only tcs msgs w) as Hrest.
  rewrite Hrun in Hchat, Hrest. cbn [transcript snd] in *. now split.
Qed.

(** Each invocation the loop logs is the one of the request at the same
    place: the requested name, the decoded arguments. *)
Lemma loop_invocation (tcs : list ToolCall) :
  forall (msgs : list PyVal) (w : W) (i : nat)
         (inv : string * PyVal * Outcome CallToolResult),
    tool_invocations (transcript (resolve_tool_calls tcs msgs w)) !! i = Some inv ->
    exists tc arguments,
      tcs !! i = Some tc
      /\ json_loads (fn_arguments (tc_function tc)) = Some arguments
      /\ fst inv = (fn_name (tc_function tc), arguments).
Proof.
  induction tcs as [|tc tcs IH]; intros msgs w i inv; [discriminate |].
  rewrite resolve_tool_calls_cons.
  destruct (json_loads _) as [arguments|] eqn:Hargs; [|discriminate].
  cbv zeta.
  assert (Hhere : forall r, i = 0 ->
            Some (fn_name (tc_function tc), arguments, r) = Some inv ->
            exists tc0 arguments0,
              (tc :: tcs) !! i = Some tc0
              /\ json_loads (fn_arguments (tc_function tc0)) = Some arguments0
              /\ fst inv = (fn_name (tc_function tc0), arguments0)).
  { intros r -> [= <-]. now exists tc, arguments. }
  destruct (call_tool _ arguments w) as [[result|e] w1].
  - destruct (tool_content_of result) as [tool_content|e].
    + specialize (IH (msgs ++ [tool_message (tc_id tc) tool_content]) w1).
      destruct (resolve_tool_calls tcs _ w1) as [[r w2] evs].
      cbn [transcript snd tool_invocations] in *.
      destruct i as [|i]; [now apply Hhere |].
      cbn [lookup list_lookup]. apply IH.
    + cbn [transcript snd tool_invocations].
      destruct i as [|i]; [now apply Hhere | discriminate].
  - cbn [transcript snd tool_invocations].
    destruct i as [|i]; [now apply Hhere | discriminate].
Qed.

(** An invocation that fails is the last one, and the loop raises its
    exception. *)
Lemma loop_invocation_failure (tcs : list ToolCall) :
  forall (msgs : list PyVal) (w : W) (i : nat) (name : string) (arguments : PyVal)
         (r : Outcome CallToolResult) (e : PyExc),
    tool_invocations (transcript (resolve_tool_calls tcs msgs w)) !! i
    = Some (name, arguments, r) ->
    invocation_failure r = Some e ->
    outcome (resolve_tool_calls tcs msgs w) = Raise e
    /\ length (tool_invocations (transcript (resolve_tool_calls tcs msgs w))) = S i.
Proof.
  induction tcs as [|tc tcs IH]; intros msgs w i name arguments r e; [discriminate |].
  rewrite resolve_tool_calls_cons.
  destruct (json_loads _) as [arguments0|]; [|discriminate].
  cbv zeta.
  destruct (call_tool _ arguments0 w) as [[result|e0] w1].
  - destruct (tool_content_of result) as [tool_content|e0] eqn:Hcontent.
    + specialize (IH (msgs ++ [tool_message (tc_id tc) tool_content]) w1).
      destruct (resolve_tool_calls tcs _ w1) as [[r0 w2] evs].
      cbn [transcript outcome fst snd tool_invocations length] in *.
      destruct i as [|i].
      * intros [= <- <- <-]. cbn [invocation_failure]. now rewrite Hcontent.
      * cbn [lookup list_lookup]. intros Hinv Hfail.
        destruct (IH i name arguments r e Hinv Hfail) as [-> ->]. now split.
    + cbn [transcript outcome fst snd tool_invocations length].
      destruct i as [|i]; [|discriminate].
      intros [= <- <- <-]. cbn [invocation_failure]. rewrite Hcontent.
      now intros [= <-].
  - cbn [transcript outcome fst snd tool_invocations length].
    destruct i as [|i]; [|discriminate].
    intros [= <- <- <-]. cbn [invocation_failure]. now intros [= <-].
Qed.


(** Case analysis on the path of a query, with the readers of the
    transcript computed as far as they go. *)
Ltac on_query_path self query w :=
  let Hpath := fresh "Hpath" in
  let run := fresh "run" in
  pose proof (process_query_path self query w) as Hpath;
  remember (process_query self query w) as run;
  destruct Hpath;
  cbn [transcript outcome final_world fst snd];
  try match goal with
      | Hloop : resolve_tool_calls _ _ _ = _ |- _ =>
          let Hc := fresh "Hchat" in
          let Hl := fresh "Hlist" in
          let Hx := fresh "Hclose" in
          let Hp := fresh "Hprint" in
          destruct (loop_run_logs _ _ _ _ _ _ Hloop) as (Hc & Hl & Hx & Hp);
          rewrite ?chat_calls_app, ?list_tools_calls_app, ?printed_app,
            ?tool_invocations_app, ?Hc, ?Hl, ?Hp
      end;
  rewrite ?chat_calls_app, ?list_tools_calls_app, ?printed_app,
    ?tool_invocations_app, ?chat_calls_api_error_report,
    ?tool_invocations_api_error_report, ?list_tools_calls_api_error_report;
  cbn [chat_calls tool_invocations list_tools_calls printed app].

(** X7.  the tool list is fetched once for a query, before anything else,
    and every model call of the query carries the deployment name as model
    and the schemas of the listed tools, in the order listed. *)
Theorem tools_fetched_once (self : MCPAzureOpenAIClient) (query : string) (w : W) :
  exists r rest,
    transcript (process_query self query w) = EvListTools r :: rest
    /\ list_tools_calls rest = []
    /\ forall call, call ∈ chat_calls (transcript (process_query self query w)) ->
         exists ts, r = Return ts
                    /\ tools (fst call) = List.map tool_schema ts
                    /\ model (fst call) = deployment_name self.
Proof.
  on_query_path self query w; eexists _, _; (split; [reflexivity |]);
    cbn [list_tools_calls];
    rewrite ?list_tools_calls_app, ?list_tools_calls_api_error_report, ?Hlist;
    cbn [list_tools_calls app]; (split; [reflexivity |]);
    rewrite ?chat_calls_app, ?chat_calls_api_error_report, ?Hchat;
    cbn [chat_calls app]; intros call Hin;
    repeat (apply elem_of_cons in Hin as [-> | Hin]; [now exists ts |]);
    now apply elem_of_nil in Hin.
Qed.

(** X8.  tools are invoked in the order of the requests, one for each
    request at most.  Every tool invocation of a query, whether it
    returned or raised, is the one of the request at the same place in the
    first response: it was called under the requested name with the
    arguments decoded from the request. *)
Theorem invocations_follow_requests (self : MCPAzureOpenAIClient) (query : string)
    (w : W) (i : nat) (inv : string * PyVal * Outcome CallToolResult) :
  tool_invocations (transcript (process_query self query w)) !! i = Some inv ->
  exists call1 am tc arguments,
    chat_calls (transcript (process_query self query w)) !! 0 = Some call1
    /\ first_message (snd call1) = Some am
    /\ requests am !! i = Some tc
    /\ json_loads (fn_arguments (tc_function tc)) = Some arguments
    /\ fst inv = (fn_name (tc_function tc), arguments).
Proof.
  on_query_path self query w; try discriminate; intros Hinv.
  - match goal with
    | Hloop : resolve_tool_calls ?tcs ?msgs ?w2 = _ |- _ =>
        pose proof (loop_invocation tcs msgs w2 i inv) as Hreq;
        rewrite Hloop in Hreq
    end.
    destruct (Hreq Hinv) as (tc & arguments & Htc & Hargs & Hname).
    eexists _, (message c), tc, arguments. split; [reflexivity |].
    split; [now apply first_message_Return with cs | auto].
  - rewrite app_nil_r in Hinv.
    match goal with
    | Hloop : resolve_tool_calls ?tcs ?msgs ?w2 = _ |- _ =>
        pose proof (loop_invocation tcs msgs w2 i inv) as Hreq;
        rewrite Hloop in Hreq
    end.
    destruct (Hreq Hinv) as (tc & arguments & Htc & Hargs & Hname).
    eexists _, (message c), tc, arguments. split; [reflexivity |].
    split; [now apply first_message_Return with cs | auto].
Qed.

(** X9.  when the first model call raises, the query raises the same
    exception after that one call: no tool is invoked, no second call is
    made, and the advice on the configuration is printed when the
    exception is an [Exception].  A query prints nothing in any other
    case. *)
Theorem first_call_failure (self : MCPAzureOpenAIClient) (query : string) (w : W) :
  (forall req e rest,
      chat_calls (transcript (process_query self query w)) = (req, Raise e) :: rest ->
      outcome (process_query self query w) = Raise e
      /\ rest = []
      /\ tool_invocations (transcript (process_query self query w)) = []
      /\ printed (transcript (process_query self query w))
         = if is_Exception e
           then [OutApiError e; OutDeploymentUsed (deployment_name self);
                 OutCheckConfiguration 0; OutCheckConfiguration 1;
                 OutCheckConfiguration 2; OutCheckConfiguration 3]
           else [])
  /\ (printed (transcript (process_query self query w)) <> [] ->
      exists req e,
        chat_calls (transcript (process_query self query w)) = [(req, Raise e)]
        /\ is_Exception e = true).
Proof.
  on_query_path self query w; (split; [intros req e0 rest | intros Hprinted]);
    try discriminate; try (now destruct Hprinted).
  - intros [= <- <- <-]. repeat split.
    unfold api_error_report. now destruct (is_Exception e).
  - eexists _, e. split; [reflexivity |].
    unfold api_error_report in Hprinted.
    destruct (is_Exception e); [reflexivity | now destruct Hprinted].
Qed.

(** X10.  a tool invocation that fails ends the query.  When [call_tool]
    raises, or the content of its result cannot be turned into text, the
    query raises that exception, the failed invocation is the last one,
    and the model is not called a second time. *)
Theorem tool_failure_aborts_query (self : MCPAzureOpenAIClient) (query : string)
    (w : W) (i : nat) (name : string) (arguments : PyVal)
    (r : Outcome CallToolResult) (e : PyExc) :
  tool_invocations (transcript (process_query self query w)) !! i
  = Some (name, arguments, r) ->
  invocation_failure r = Some e ->
  outcome (process_query self query w) = Raise e
  /\ length (tool_invocations (transcript (process_query self query w))) = S i
  /\ length (chat_calls (transcript (process_query self query w))) = 1.
Proof.
  on_query_path self query w; try discriminate; intros Hinv Hfail.
  - match goal with
    | Hloop : resolve_tool_calls ?tcs ?msgs ?w2 = _ |- _ =>
        pose proof (loop_invocation_failure tcs msgs w2 i name arguments r e) as Hlast;
        rewrite Hloop in Hlast
    end.
    destruct (Hlast Hinv Hfail) as [Hout Hlen]. cbn in Hout, Hlen.
    injection Hout as ->. now repeat split.
  - rewrite app_nil_r in Hinv.
    match goal with
    | Hloop : resolve_tool_calls ?tcs ?msgs ?w2 = _ |- _ =>
        pose proof (loop_invocation_failure tcs msgs w2 i name arguments r e) as Hlast;
        rewrite Hloop in Hlast
    end.
    destruct (Hlast Hinv Hfail) as [Hout _]. discriminate.
Qed.

(** X11.  the answer of a query with tool calls is what the second model
    call gives, as it is: the content of the first choice of its response,
    be it [None]; [IndexError] when the response has no choice; the
    exception of the call when it raises. *)
Theorem answer_is_second_response (self : MCPAzureOpenAIClient) (query : string)
    (w : W) (call1 : ChatRequest * Outcome ChatCompletion) (req2 : ChatRequest)
    (r2 : Outcome ChatCompletion)
    (rest : list (ChatRequest * Outcome ChatCompletion)) :
  chat_calls (transcript (process_query self query w)) = call1 :: (req2, r2) :: rest ->
  outcome (process_query self query w) = final_answer r2
  /\ (forall final_response c cs,
        r2 = Return final_response -> choices final_response = c :: cs ->
        outcome (process_query self query w) = Return (msg_content (message c)))
  /\ (forall final_response,
        r2 = Return final_response -> choices final_response = [] ->
        outcome (process_query self query w)
        = Raise (IndexError "list index out of range"))
  /\ (forall e, r2 = Raise e -> outcome (process_query self query w) = Raise e).
Proof.
  on_query_path self query w; try discriminate.
  intros [= <- <- <- <-]. split; [reflexivity |]. repeat split.
  - intros final_response c0 cs0 -> Hc. cbn. unfold answer_of. now rewrite Hc.
  - intros final_response -> Hc. cbn. unfold answer_of. now rewrite Hc.
  - now intros e ->.
Qed.

(** X12.  a first response without a choice.  Reading its first choice
    raises [IndexError]: the query fails with it, no tool is invoked and
    there is no second call. *)
Theorem first_response_without_choice (self : MCPAzureOpenAIClient) (query : string)
    (w : W) (req : ChatRequest) (response : ChatCompletion)
    (rest : list (ChatRequest * Outcome ChatCompletion)) :
  chat_calls (transcript (process_query self query w)) = (req, Return response) :: rest ->
  choices response = [] ->
  outcome (process_query self query w) = Raise (IndexError "list index out of range")
  /\ rest = []
  /\ tool_invocations (transcript (process_query self query w)) = [].
Proof.
  on_query_path self query w; try discriminate;
    intros [= <- <- <-] Hnone; try congruence.
  now repeat split.
Qed.


(** *** The turns of the loop *)

(** The loop over its first input and the rest. *)
Lemma query_loop_cons (client : MCPAzureOpenAIClient) (ev : InputEvent)
    (rest : list InputEvent) (w : W) :
  query_loop client (ev :: rest) w
  = match try_except (loop_body client ev) loop_handlers w with
    | (Return Break, w1, evs1) => (Return Exited, w1, evs1)
    | (Return Continue, w1, evs1) =>
        (outcome (query_loop client rest w1),
         final_world (query_loop client rest w1),
         evs1 ++ transcript (query_loop client rest w1))
    | (Raise e, w1, evs1) => (Raise e, w1, evs1)
    end.
Proof.
  cbn [query_loop]. unfold bind.
  destruct (try_except (loop_body client ev) loop_handlers w)
    as [[[control|e] w1] evs1]; [|reflexivity].
  destruct control.
  - cbn [ret]. now rewrite app_nil_r.
  - now destruct (query_loop client rest w1) as [[r w2] evs2].
Qed.

(** A turn on a line of input, with its handlers. *)
Lemma turn_on_line (client : MCPAzureOpenAIClient) (text : string) (w : W) :
  try_except (loop_body client (Line text)) loop_handlers w
  = if bool_decide (PyStr.lower (PyStr.strip text) ∈ exit_words)
    then (Return Break, w, [EvPrint OutGoodbye])
    else if bool_decide (PyStr.strip text = EmptyString)
    then (Return Continue, w, [EvPrint OutEmptyInput])
    else match process_query client (PyStr.strip text) w with
         | (Return response, w1, evs1) =>
             (Return Continue, w1,
              EvPrint (OutProcessing (PyStr.strip text)) :: evs1
              ++ [EvPrint (OutAssistant response)])
         | (Raise e, w1, evs1) =>
             (Return (match e with KeyboardInterrupt => Break | _ => Continue end), w1,
              EvPrint (OutProcessing (PyStr.strip text)) :: evs1
              ++ [EvPrint (match e with
                           | KeyboardInterrupt => OutGoodbye
                           | _ => OutQueryError e
                           end)])
         end.
Proof.
  unfold try_except, loop_body. unfold bind at 1. cbn [input ret].
  destruct (bool_decide (PyStr.lower (PyStr.strip text) ∈ exit_words));
    [reflexivity |].
  destruct (bool_decide (PyStr.strip text = EmptyString)); [reflexivity |].
  unfold bind at 1. cbn [print]. unfold bind at 1.
  destruct (process_query client (PyStr.strip text) w) as [[[response|e] w1] evs1].
  - cbn. rewrite ?app_nil_r. reflexivity.
  - destruct e; cbn; rewrite ?app_nil_r; reflexivity.
Qed.

(** A turn on an input that raises at the prompt. *)
Lemma turn_on_interrupt (client : MCPAzureOpenAIClient) (w : W) :
  try_except (loop_body client CtrlC) loop_handlers w
  = (Return Break, w, [EvPrint OutGoodbye]).
Proof. reflexivity. Qed.

Lemma turn_on_end_of_file (client : MCPAzureOpenAIClient) (w : W) :
  try_except (loop_body client EndOfFile) loop_handlers w
  = (Return Continue, w, [EvPrint (OutQueryError EOFError)]).
Proof. reflexivity. Qed.

Lemma strip_blank_exit_word (text : string) :
  PyStr.blank text = true ->
  PyStr.strip text = EmptyString
  /\ PyStr.lower (PyStr.strip text) ∉ exit_words.
Proof.
  intros Hb%PyStrFacts.strip_blank. rewrite Hb. split; [reflexivity |].
  cbn. intros Hin.
  repeat (apply elem_of_cons in Hin as [Heq | Hin]; [discriminate Heq |]).
  now apply elem_of_nil in Hin.
Qed.

(** X13.  leaving the loop.  A line that is "exit", "quit" or "bye" once
    stripped and put in lower case ends the loop with a goodbye: the model
    is not asked, the world is as it was, the inputs that follow are not
    read.  So does an interrupt at the prompt. *)
Theorem exit_word_ends_loop (client : MCPAzureOpenAIClient) (text : string)
    (rest : list InputEvent) (w : W) :
  PyStr.lower (PyStr.strip text) ∈ exit_words ->
  query_loop client (Line text :: rest) w = (Return Exited, w, [EvPrint OutGoodbye])
  /\ query_loop client (CtrlC :: rest) w = (Return Exited, w, [EvPrint OutGoodbye]).
Proof.
  intros Hexit. split.
  - rewrite query_loop_cons, turn_on_line.
    now rewrite (bool_decide_eq_true_2 _ Hexit).
  - now rewrite query_loop_cons, turn_on_interrupt.
Qed.

(** X14.  a line of whitespace is skipped.  The loop asks for a question and
    goes on with the next input in the same world: no query is
    processed. *)
Theorem blank_line_is_skipped (client : MCPAzureOpenAIClient) (text : string)
    (rest : list InputEvent) (w : W) :
  PyStr.blank text = true ->
  query_loop client (Line text :: rest) w
  = (outcome (query_loop client rest w),
     final_world (query_loop client rest w),
     EvPrint OutEmptyInput :: transcript (query_loop client rest w)).
Proof.
  intros [Hstrip Hexit]%strip_blank_exit_word.
  rewrite query_loop_cons, turn_on_line.
  rewrite (bool_decide_eq_false_2 _ Hexit), (bool_decide_eq_true_2 _ Hstrip).
  reflexivity.
Qed.

(** X15.  an interrupt while a query is processed ends the loop.  The
    transcript is that of the attempt followed by the goodbye; the inputs
    that follow are not read. *)
Theorem interrupted_query_ends_loop (client : MCPAzureOpenAIClient) (text : string)
    (rest : list InputEvent) (w w1 : W) (evs1 : list Event) :
  PyStr.lower (PyStr.strip text) ∉ exit_words ->
  PyStr.strip text <> EmptyString ->
  process_query client (PyStr.strip text) w = (Raise KeyboardInterrupt, w1, evs1) ->
  query_loop client (Line text :: rest) w
  = (Return Exited, w1,
     EvPrint (OutProcessing (PyStr.strip text)) :: evs1 ++ [EvPrint OutGoodbye]).
Proof.
  intros Hexit Hempty Hrun.
  rewrite query_loop_cons, turn_on_line.
  rewrite (bool_decide_eq_false_2 _ Hexit), (bool_decide_eq_false_2 _ Hempty), Hrun.
  reflexivity.
Qed.

(** X16.  the end of the input does not end the loop.  Each [input()] that
    meets the end of the input raises [EOFError], which the loop reports
    as the error of a query before it asks again: after any number of
    them the loop is still waiting, and the world is as it was. *)
Theorem end_of_file_keeps_looping (client : MCPAzureOpenAIClient) (n : nat) (w : W) :
  query_loop client (replicate n EndOfFile) w
  = (Return AwaitingInput, w, replicate n (EvPrint (OutQueryError EOFError))).
Proof.
  induction n as [|n IH]; [reflexivity |].
  cbn [replicate]. rewrite query_loop_cons, turn_on_end_of_file, IH.
  reflexivity.
Qed.

(** X17.  a query that is answered.  The turn prints the query, runs
    [process_query] once, prints the answer, and the loop goes on with the
    next input from the world the query left. *)
Theorem answered_query_turn (client : MCPAzureOpenAIClient) (text : string)
    (rest : list InputEvent) (w w1 : W) (response : option string)
    (evs1 : list Event) :
  PyStr.lower (PyStr.strip text) ∉ exit_words ->
  PyStr.strip text <> EmptyString ->
  process_query client (PyStr.strip text) w = (Return response, w1, evs1) ->
  query_loop client (Line text :: rest) w
  = (outcome (query_loop client rest w1),
     final_world (query_loop client rest w1),
     EvPrint (OutProcessing (PyStr.strip text)) :: evs1
     ++ EvPrint (OutAssistant response) :: transcript (query_loop client rest w1)).
Proof.
  intros Hexit Hempty Hrun.
  rewrite query_loop_cons, turn_on_line.
  rewrite (bool_decide_eq_false_2 _ Hexit), (bool_decide_eq_false_2 _ Hempty), Hrun.
  cbn [app]. now rewrite <- app_assoc.
Qed.


(** *** The session *)

Lemma bind_run {A B : Type} (m : M W A) (k : A -> M W B) (w : W) :
  bind m k w
  = match m w with
    | (Return a, w1, evs1) =>
        (outcome (k a w1), final_world (k a w1), evs1 ++ transcript (k a w1))
    | (Raise e, w1, evs1) => (Raise e, w1, evs1)
    end.
Proof.
  unfold bind. destruct (m w) as [[[a|e] w1] evs1]; [|reflexivity].
  now destruct (k a w1) as [[r w2] evs2].
Qed.

Lemma keeps_open_bind {A B : Type} (m : M W A) (k : A -> M W B) :
  keeps_open m -> (forall a, keeps_open (k a)) -> keeps_open (bind m k).
Proof.
  intros Hm Hk w. rewrite bind_run. specialize (Hm w).
  destruct (m w) as [[[a|e] w1] evs1]; cbn [transcript snd] in *; [|exact Hm].
  now rewrite close_calls_app, Hm, (Hk a w1).
Qed.

Lemma keeps_open_try_except {A : Type} (m : M W A) (h : PyExc -> option (M W A)) :
  keeps_open m ->
  (forall e handler, h e = Some handler -> keeps_open handler) ->
  keeps_open (try_except m h).
Proof.
  intros Hm Hh w. unfold try_except. specialize (Hm w).
  destruct (m w) as [[[a|e] w1] evs1]; cbn [transcript snd] in *; [exact Hm |].
  destruct (h e) as [handler|] eqn:He; [|exact Hm].
  specialize (Hh e handler He w1).
  destruct (handler w1) as [[r w2] evs2]. cbn [transcript snd] in *.
  now rewrite close_calls_app, Hm, Hh.
Qed.

Lemma keeps_open_ret {A : Type} (a : A) : keeps_open (ret a : M W A).
Proof. now intros w. Qed.

Lemma keeps_open_raise {A : Type} (e : PyExc) : keeps_open (raise e : M W A).
Proof. now intros w. Qed.

Lemma keeps_open_lift {A : Type} (o : Outcome A) : keeps_open (lift o : M W A).
Proof. now intros w. Qed.

Lemma keeps_open_print (o : Output) : keeps_open (print o : M W unit).
Proof. now intros w. Qed.

Lemma keeps_open_connect : keeps_open session_connect.
Proof. intros w. unfold session_connect. now destruct (connect w). Qed.

Lemma keeps_open_list_tools : keeps_open session_list_tools.
Proof. intros w. unfold session_list_tools. now destruct (list_tools w). Qed.

Lemma keeps_open_process_query (self : MCPAzureOpenAIClient) (query : string) :
  keeps_open (process_query self query).
Proof.
  intros w.
  pose proof (process_query_path self query w) as Hpath.
  destruct Hpath; cbn [transcript snd];
    try match goal with
        | Hloop : resolve_tool_calls _ _ _ = _ |- _ =>
            destruct (loop_run_logs _ _ _ _ _ _ Hloop) as (_ & _ & Hclose & _)
        end;
    rewrite ?close_calls_app, ?Hclose; try reflexivity.
  unfold api_error_report. now destruct (is_Exception e).
Qed.

Lemma keeps_open_turn (client : MCPAzureOpenAIClient) (ev : InputEvent) :
  keeps_open (try_except (loop_body client ev) loop_handlers).
Proof.
  apply keeps_open_try_except.
  - unfold loop_body. apply keeps_open_bind.
    + destruct ev; [apply keeps_open_ret | apply keeps_open_raise ..].
    + intros raw.
      destruct (bool_decide _);
        [apply keeps_open_bind;
           [apply keeps_open_print | intros; apply keeps_open_ret] |].
      destruct (bool_decide _);
        [apply keeps_open_bind;
           [apply keeps_open_print | intros; apply keeps_open_ret] |].
      apply keeps_open_bind; [apply keeps_open_print | intros _].
      apply keeps_open_bind; [apply keeps_open_process_query | intros response].
      apply keeps_open_bind; [apply keeps_open_print | intros; apply keeps_open_ret].
  - intros e handler He.
    destruct e; injection He as <-;
      (apply keeps_open_bind; [apply keeps_open_print | intros; apply keeps_open_ret]).
Qed.

Lemma keeps_open_query_loop (client : MCPAzureOpenAIClient) (inputs : list InputEvent) :
  keeps_open (query_loop client inputs).
Proof.
  induction inputs as [|ev inputs IH]; [apply keeps_open_ret |].
  cbn [query_loop]. apply keeps_open_bind; [apply keeps_open_turn |].
  intros [|]; [apply keeps_open_ret | exact IH].
Qed.

(** The lines for the tools, as a computation. *)
Lemma tool_lines_run (ts : list Tool) (w : W) :
  fold_right
    (fun tool k => print (OutTool (tool_name tool) (tool_description tool)) ;; k)
    (ret tt) ts w
  = (Return tt, w, tool_lines ts).
Proof.
  induction ts as [|tool ts IH]; [reflexivity |].
  cbn [fold_right]. rewrite bind_run. cbn [print]. now rewrite IH.
Qed.

Lemma close_calls_tool_lines (ts : list Tool) : close_calls (tool_lines ts) = [].
Proof. induction ts as [|tool ts IH]; [reflexivity | exact IH]. Qed.

Lemma connect_to_server_run (w : W) :
  connect_to_server w
  = match connect w with
    | (Raise e, w1) => (Raise e, w1, [EvConnect (Raise e)])
    | (Return u, w1) =>
        match list_tools w1 with
        | (Raise e, w2) => (Raise e, w2, [EvConnect (Return u); EvListTools (Raise e)])
        | (Return ts, w2) =>
            (Return tt, w2,
             [EvConnect (Return u); EvListTools (Return ts); EvPrint OutConnected]
             ++ tool_lines ts)
        end
    end.
Proof.
  unfold connect_to_server. rewrite bind_run. unfold session_connect.
  destruct (connect w) as [[u|e] w1]; [|reflexivity].
  rewrite bind_run. unfold session_list_tools.
  destruct (list_tools w1) as [[ts|e] w2]; [|reflexivity].
  rewrite bind_run. cbn [print]. now rewrite tool_lines_run.
Qed.

Lemma keeps_open_connect_to_server : keeps_open connect_to_server.
Proof.
  intros w. rewrite connect_to_server_run.
  destruct (connect w) as [[u|e] w1]; [|reflexivity].
  destruct (list_tools w1) as [[ts|e] w2]; [|reflexivity].
  cbn [transcript snd app close_calls]. apply close_calls_tool_lines.
Qed.

Lemma keeps_open_session_body (client : MCPAzureOpenAIClient)
    (inputs : list InputEvent) :
  keeps_open (session_body client inputs).
Proof.
  apply keeps_open_try_except.
  - apply keeps_open_bind; [apply keeps_open_connect_to_server | intros _].
    repeat (apply keeps_open_bind; [apply keeps_open_print | intros _]).
    apply keeps_open_query_loop.
  - intros e handler. unfold outer_handlers.
    destruct (is_ValueError e); [|destruct (is_Exception e)]; intros [= <-];
      (apply keeps_open_bind; [apply keeps_open_print | intros; apply keeps_open_ret]).
Qed.

Lemma interactive_built (environ : gmap string string) (client : MCPAzureOpenAIClient)
    (inputs : list InputEvent) (w : W) :
  init environ None = Return client ->
  interactive_azure_openai environ inputs w
  = try_finally (session_body client inputs) exit_stack_aclose w.
Proof.
  intros Hinit. unfold interactive_azure_openai. rewrite bind_run.
  unfold lift. rewrite Hinit. fold (session_body client inputs).
  now destruct (try_finally (session_body client inputs) exit_stack_aclose w)
    as [[r w2] evs2].
Qed.

(** X18.  [connect_to_server].  When the connection and the listing
    succeed, it prints the header and then one line for each tool, in the
    order listed, and nothing else happens; when the connection fails the
    tool list is not asked for, and when the listing fails nothing is
    printed. *)
Theorem connect_to_server_lists_tools (w : W) :
  (forall u w1 ts w2,
      connect w = (Return u, w1) -> list_tools w1 = (Return ts, w2) ->
      connect_to_server w
      = (Return tt, w2,
         [EvConnect (Return u); EvListTools (Return ts); EvPrint OutConnected]
         ++ tool_lines ts)
      /\ length (printed (transcript (connect_to_server w))) = S (length ts))
  /\ (forall e w1,
        connect w = (Raise e, w1) ->
        connect_to_server w = (Raise e, w1, [EvConnect (Raise e)]))
  /\ (forall u w1 e w2,
        connect w = (Return u, w1) -> list_tools w1 = (Raise e, w2) ->
        connect_to_server w
        = (Raise e, w2, [EvConnect (Return u); EvListTools (Raise e)])).
Proof.
  rewrite connect_to_server_run. split; [|split].
  - intros u w1 ts w2 -> ->. split; [reflexivity |].
    cbn [transcript snd app printed length]. f_equal.
    unfold tool_lines. induction ts as [|tool ts IH]; [reflexivity |].
    cbn [List.map printed length]. now rewrite IH.
  - intros e w1 ->. reflexivity.
  - intros u w1 e w2 -> ->. reflexivity.
Qed.

(** X19.  the session is closed once, at its end.  With the client built,
    a run that has left the loop, whether it ended or raised, closes the
    session as its last step and at no other point; a run that still
    waits for input has not closed it. *)
Theorem session_closed_once (environ : gmap string string)
    (client : MCPAzureOpenAIClient) (inputs : list InputEvent) (w : W) :
  init environ None = Return client ->
  (outcome (interactive_azure_openai environ inputs w) = Return AwaitingInput ->
   close_calls (transcript (interactive_azure_openai environ inputs w)) = [])
  /\ (outcome (interactive_azure_openai environ inputs w) <> Return AwaitingInput ->
      exists r evs,
        transcript (interactive_azure_openai environ inputs w) = evs ++ [EvClose r]
        /\ close_calls evs = []).
Proof.
  intros Hinit. rewrite (interactive_built environ client inputs w Hinit).
  unfold try_finally.
  pose proof (keeps_open_session_body client inputs w) as Hopen.
  destruct (session_body client inputs w) as [[[status|e] w1] evs1].
  - cbn [transcript snd] in Hopen. destruct status.
    + unfold exit_stack_aclose.
      destruct (aclose w1) as [[u|e'] w2]; cbn [outcome transcript fst snd];
        (split; [discriminate | intros _; eexists _, evs1; split; [reflexivity | exact Hopen]]).
    + cbn [outcome transcript fst snd]. split; [intros _; exact Hopen |].
      intros Hne. now destruct Hne.
  - cbn [transcript snd] in Hopen. unfold exit_stack_aclose.
    destruct (aclose w1) as [[u|e'] w2]; cbn [outcome transcript fst snd];
      (split; [discriminate | intros _; eexists _, evs1; split; [reflexivity | exact Hopen]]).
Qed.

(** X20.  a connection that fails.  With the client built, when connecting
    raises an [Exception], the session prints it (as a configuration error
    when it is a [ValueError]), closes, and ends: the banner is not
    printed, no input is read, the model is not called. *)
Theorem connect_failure_reported (environ : gmap string string)
    (client : MCPAzureOpenAIClient) (inputs : list InputEvent) (w w1 w2 : W)
    (e : PyExc) (u : unit) :
  init environ None = Return client ->
  connect w = (Raise e, w1) ->
  is_Exception e = true ->
  aclose w1 = (Return u, w2) ->
  interactive_azure_openai environ inputs w
  = (Return Exited, w2,
     [EvConnect (Raise e); EvPrint (startup_report e); EvClose (Return u)]).
Proof.
  intros Hinit Hconnect Hexc Hclose.
  rewrite (interactive_built environ client inputs w Hinit).
  unfold try_finally, session_body, try_except. rewrite bind_run.
  rewrite connect_to_server_run, Hconnect.
  unfold outer_handlers, startup_report. rewrite Hexc.
  destruct (is_ValueError e); rewrite bind_run;
    cbn [print ret outcome final_world transcript fst snd app];
    unfold exit_stack_aclose; now rewrite Hclose.
Qed.

End Query.

(** X21.  building the client.  With the API key and the endpoint set and
    not empty, and a deployment name given as argument or set, the client
    is built with those values: an argument that is not empty goes before
    the environment, and the API version is "2025-01-01" unless set. *)
Theorem init_builds_client (environ : gmap string string)
    (deployment_name_arg : option string) :
  opt_truthy (environ !! "AZURE_OPENAI_API_KEY") = true ->
  opt_truthy (environ !! "AZURE_OPENAI_ENDPOINT") = true ->
  opt_truthy (or_else deployment_name_arg (environ !! "AZURE_OPENAI_DEPLOYMENT_NAME"))
  = true ->
  exists client,
    init environ deployment_name_arg = Return client
    /\ environ !! "AZURE_OPENAI_API_KEY" = Some (api_key client)
    /\ environ !! "AZURE_OPENAI_ENDPOINT" = Some (azure_endpoint client)
    /\ or_else deployment_name_arg (environ !! "AZURE_OPENAI_DEPLOYMENT_NAME")
       = Some (deployment_name client)
    /\ (opt_truthy deployment_name_arg = true ->
        deployment_name_arg = Some (deployment_name client))
    /\ api_version client
       = default "2025-01-01" (environ !! "AZURE_OPENAI_API_VERSION").
Proof.
  intros Hkey Hendpoint Hname. unfold init. cbn [forallb].
  rewrite Hkey, Hendpoint, Hname. cbn [andb negb].
  eexists. split; [reflexivity |]. cbn.
  destruct (environ !! "AZURE_OPENAI_API_KEY") as [k|]; [|discriminate].
  destruct (environ !! "AZURE_OPENAI_ENDPOINT") as [p|]; [|discriminate].
  destruct (or_else deployment_name_arg (environ !! "AZURE_OPENAI_DEPLOYMENT_NAME"))
    as [d|] eqn:Hd; [|discriminate].
  repeat split. intros Harg. unfold or_else in Hd. rewrite Harg in Hd. exact Hd.
Qed.


End ClientMore.

(* ===================================================================== *)
(** ** More runs                                                          *)
(* ===================================================================== *)

Module ScenariosMore.
Import Py Client Demo Worlds Observations ClientFacts ClientMore Scenarios.

Lemma invocations_follow_requests_witness :
  exists call1 am tc arguments,
    chat_calls (transcript (process_query demo_client demo_query w_two_calls)) !! 0
    = Some call1
    /\ first_message (snd call1) = Some am
    /\ requests am !! 1 = Some tc
    /\ json_loads (fn_arguments (tc_function tc)) = Some arguments
    /\ fst ("read_notes", PDict [], Return (text_result "buy milk"))
       = (fn_name (tc_function tc), arguments).
Proof.
  apply (invocations_follow_requests demo_client demo_query w_two_calls 1
           ("read_notes", PDict [], Return (text_result "buy milk"))).
  reflexivity.
Defined.

(** The tool returns an image: its first element has no [text], reading
    it raises [AttributeError], and the query ends there. *)
Lemma tool_failure_aborts_query_witness :
  outcome (process_query demo_client "Draw a chart" w_image_result)
  = Raise (AttributeError "text")
  /\ length (tool_invocations
               (transcript (process_query demo_client "Draw a chart" w_image_result)))
     = 1
  /\ length (chat_calls
               (transcript (process_query demo_client "Draw a chart" w_image_result)))
     = 1.
Proof.
  apply (tool_failure_aborts_query demo_client "Draw a chart" w_image_result 0
           "draw_chart" (PDict []) (Return image_result) (AttributeError "text"));
    reflexivity.
Defined.

(** The second answer has no text: the query returns [None]. *)
Lemma answer_is_second_response_witness :
  outcome (process_query demo_client "note it" w_silent_answer)
  = final_answer (reply None None)
  /\ (forall final_response c cs,
        reply None None = Return final_response -> choices final_response = c :: cs ->
        outcome (process_query demo_client "note it" w_silent_answer)
        = Return (msg_content (message c)))
  /\ (forall final_response,
        reply None None = Return final_response -> choices final_response = [] ->
        outcome (process_query demo_client "note it" w_silent_answer)
        = Raise (IndexError "list index out of range"))
  /\ (forall e, reply None None = Raise e ->
        outcome (process_query demo_client "note it" w_silent_answer) = Raise e).
Proof.
  eapply (answer_is_second_response demo_client "note it" w_silent_answer _ _ _ []).
  reflexivity.
Defined.

Lemma first_response_without_choice_witness :
  outcome (process_query demo_client "hi" w_no_choice)
  = Raise (IndexError "list index out of range")
  /\ @nil (ChatRequest * Outcome ChatCompletion) = []
  /\ tool_invocations (transcript (process_query demo_client "hi" w_no_choice)) = [].
Proof.
  eapply (first_response_without_choice demo_client "hi" w_no_choice _
            {| choices := [] |} []);
    reflexivity.
Defined.

Lemma exit_word_ends_loop_witness :
  query_loop demo_client [Line " QUIT "; Line "hi"] w_direct
  = (Return Exited, w_direct, [EvPrint OutGoodbye])
  /\ query_loop demo_client [CtrlC; Line "hi"] w_direct
     = (Return Exited, w_direct, [EvPrint OutGoodbye]).
Proof.
  apply (exit_word_ends_loop demo_client " QUIT " [Line "hi"] w_direct).
  vm_compute. apply elem_of_cons. right. apply elem_of_cons. now left.
Defined.

Lemma blank_line_is_skipped_witness :
  query_loop demo_client [Line "   "; Line "bye"] w_direct
  = (outcome (query_loop demo_client [Line "bye"] w_direct),
     final_world (query_loop demo_client [Line "bye"] w_direct),
     EvPrint OutEmptyInput :: transcript (query_loop demo_client [Line "bye"] w_direct)).
Proof.
  apply (blank_line_is_skipped demo_client "   " [Line "bye"] w_direct).
  reflexivity.
Defined.

Lemma interrupted_query_ends_loop_witness :
  query_loop demo_client [Line "hi"; Line "again"] w_interrupted
  = (Return Exited,
     final_world (process_query demo_client "hi" w_interrupted),
     EvPrint (OutProcessing (PyStr.strip "hi"))
     :: transcript (process_query demo_client "hi" w_interrupted)
     ++ [EvPrint OutGoodbye]).
Proof.
  apply (interrupted_query_ends_loop demo_client "hi" [Line "again"] w_interrupted).
  - apply not_exit_word; discriminate.
  - discriminate.
  - reflexivity.
Defined.

Lemma answered_query_turn_witness :
  query_loop demo_client [Line "Hi"; Line "bye"] w_direct
  = (outcome (query_loop demo_client [Line "bye"]
                (final_world (process_query demo_client "Hi" w_direct))),
     final_world (query_loop demo_client [Line "bye"]
                    (final_world (process_query demo_client "Hi" w_direct))),
     EvPrint (OutProcessing (PyStr.strip "Hi"))
     :: transcript (process_query demo_client "Hi" w_direct)
     ++ EvPrint (OutAssistant (Some "Hello!"))
        :: transcript (query_loop demo_client [Line "bye"]
                         (final_world (process_query demo_client "Hi" w_direct)))).
Proof.
  apply (answered_query_turn demo_client "Hi" [Line "bye"] w_direct).
  - apply not_exit_word; discriminate.
  - discriminate.
  - reflexivity.
Defined.

Lemma session_closed_once_witness :
  (outcome (interactive_azure_openai demo_environ [Line "Hi"; Line "quit"] w_direct)
   = Return AwaitingInput ->
   close_calls (transcript (interactive_azure_openai demo_environ
                              [Line "Hi"; Line "quit"] w_direct)) = [])
  /\ (outcome (interactive_azure_openai demo_environ [Line "Hi"; Line "quit"] w_direct)
      <> Return AwaitingInput ->
      exists r evs,
        transcript (interactive_azure_openai demo_environ [Line "Hi"; Line "quit"] w_direct)
        = evs ++ [EvClose r]
        /\ close_calls evs = []).
Proof.
  apply (session_closed_once demo_environ demo_client [Line "Hi"; Line "quit"] w_direct).
  vm_compute. reflexivity.
Defined.

Lemma connect_failure_reported_witness :
  interactive_azure_openai demo_environ [Line "Hi"] offline
  = (Return Exited, offline,
     [EvConnect (Raise connection_refused);
      EvPrint (startup_report connection_refused);
      EvClose (Return tt)]).
Proof.
  apply (connect_failure_reported demo_environ demo_client [Line "Hi"]
           offline offline offline connection_refused tt).
  - vm_compute. reflexivity.
  - reflexivity.
  - reflexivity.
  - reflexivity.
Defined.

(** The argument goes before the environment. *)
Lemma init_builds_client_witness :
  exists client,
    init demo_environ (Some "gpt-4o-mini") = Return client
    /\ demo_environ !! "AZURE_OPENAI_API_KEY" = Some (api_key client)
    /\ demo_environ !! "AZURE_OPENAI_ENDPOINT" = Some (azure_endpoint client)
    /\ or_else (Some "gpt-4o-mini") (demo_environ !! "AZURE_OPENAI_DEPLOYMENT_NAME")
       = Some (deployment_name client)
    /\ (opt_truthy (Some "gpt-4o-mini") = true ->
        Some "gpt-4o-mini" = Some (deployment_name client))
    /\ api_version client
       = default "2025-01-01" (demo_environ !! "AZURE_OPENAI_API_VERSION").
Proof.
  apply (init_builds_client demo_environ (Some "gpt-4o-mini")); reflexivity.
Defined.

End ScenariosMore.
